(** * The miner actor of go-filecoin (actor/builtin/miner/miner.go)

    A shallow embedding of the miner actor's exported methods and the
    properties of its state machine: ask book, sector commitment, PoSt
    submission, authorization.

    Go values are modelled as follows.
    - [*big.Int], [*types.AttoFIL], [*types.BlockHeight]: [Z]
      (arbitrary precision, no wrap-around); a pointer that may be
      unset ([ProvingPeriodStart], [LastPoSt]) is an [option Z].
    - [uint64] sector ids: [N]; the actor performs no arithmetic on them.
    - [[]byte] and the fixed-size byte arrays: [list byte].
    - [map[string]types.Commitments]: [gmap string Commitments], keyed by
      the decimal spelling of the sector id, as in the source.
    - the VM context, the PoSt verifier and the CBOR encoder are
      interfaces of the host: records of functions. *)

From Stdlib Require Import ZArith Lia.
From Stdlib Require Import Init.Byte.
From Stdlib Require Import Ascii.
From stdpp Require Import base gmap strings list pretty sorting.

Local Open Scope Z_scope.

(** * The node's entry point (package main)

    What [main] does before it hands over to [commands.Run]: it reads
    two environment variables and configures the loggers. The calls on
    the logging library are kept as a trace. *)
Module Main.

(** The value of a decimal digit, as in [ch -= '0'; if ch > 9]. *)
Definition digit (c : Ascii.ascii) : option N :=
  let n := Ascii.N_of_ascii c in
  if (48 <=? n)%N && (n <=? 57)%N then Some (n - 48)%N else None.

Fixpoint parseDigits (s : string) (acc : N) : option N :=
  match s with
  | EmptyString => Some acc
  | String c rest =>
      match digit c with
      | Some d => parseDigits rest (acc * 10 + d)%N
      | None => None
      end
  end.

(** [strconv.Atoi] on a platform whose [int] has 64 bits: an optional
    sign, then one or more decimal digits, in the range of [int];
    [None] is a non-nil error. *)
Definition Atoi (s : string) : option Z :=
  match s with
  | EmptyString => None
  | String c rest =>
      let neg := Ascii.eqb c "-"%char in
      let body :=
        if Ascii.eqb c "-"%char || Ascii.eqb c "+"%char then rest else s in
      match body with
      | EmptyString => None
      | String _ _ =>
          match parseDigits body 0 with
          | None => None
          | Some v =>
              let n := if neg then - Z.of_N v else Z.of_N v in
              if (- 2 ^ 63 <=? n) && (n <? 2 ^ 63) then Some n else None
          end
      end
  end.

(** The level [main] passes to [SetAllLoggers]; [getenv] is
    [os.Getenv], which yields the empty string for an unset variable. *)
Definition logLevel (getenv : string → string) : Z :=
  match Atoi (getenv "GO_FILECOIN_LOG_LEVEL") with
  | Some n => n
  | None => 3
  end.

Inductive LogCall :=
  | SetFormatterJSON
  | SetAllLoggers (level : Z)
  | SetLogLevel (name level : string).

(** The calls of [main] on the logging library, in order. *)
Definition main_logging (getenv : string → string) : list LogCall :=
  (if decide (getenv "GO_FILECOIN_LOG_JSON" = "1")
   then [SetFormatterJSON] else [])
  ++ [ SetAllLoggers (logLevel getenv);
       SetLogLevel "dht" "error";
       SetLogLevel "bitswap" "error";
       SetLogLevel "heartbeat" "error";
       SetLogLevel "blockservice" "error";
       SetLogLevel "peerqueue" "error";
       SetLogLevel "swarm" "error";
       SetLogLevel "swarm2" "error";
       SetLogLevel "basichost" "error";
       SetLogLevel "dht_net" "error" ].

(** An environment in which only the log level is set. *)
Definition onlyLevel (value : string) (name : string) : string :=
  if decide (name = "GO_FILECOIN_LOG_LEVEL") then value else "".

End Main.

Module Miner.

Abbreviation Address := string (only parsing).
Abbreviation peer_ID := string (only parsing).
Abbreviation Bytes := (list byte) (only parsing).
Abbreviation AttoFIL := Z (only parsing).
Abbreviation BlockHeight := Z (only parsing).

(** ** Error taxonomy (package vm/errors) *)

Inductive ErrorKind := Revert | Fault.

Record error := mkError {
  err_kind : ErrorKind;
  err_code : Z;
  err_msg : string
}.

(** Modelled from the spec: [errors.NewRevertError] of package vm/errors,
    which is not among the sources. Section 7 of the specification gives
    the generic revert the code 1. *)
Definition NewRevertError (msg : string) : error := mkError Revert 1 msg.

(** Modelled from the spec: [errors.NewCodedRevertErrorf], a revert error
    carrying the given small integer code. *)
Definition NewCodedRevertError (code : Z) (msg : string) : error :=
  mkError Revert code msg.

(** Modelled from the spec: [errors.RevertErrorWrap], a generic revert
    error around a host error. *)
Definition RevertErrorWrap (inner : error) (msg : string) : error :=
  mkError Revert 1 (msg +:+ ": " +:+ err_msg inner).

(** Modelled from the spec: [errors.CodeError], the exit code an error
    carries; host errors keep their native code. *)
Definition CodeError (e : error) : Z := err_code e.

(** ** Block heights (package types) *)

(** Modelled from the spec: [types.BlockHeight] and its methods, declared
    in package types, which is not among the sources. The specification
    reads a block height as an integer of chain time and compares and
    adds heights as integers. *)
Definition NewBlockHeight (x : Z) : BlockHeight := x.
Definition BlockHeight_Add (z y : BlockHeight) : BlockHeight := z + y.
Definition BlockHeight_LessThan (z y : BlockHeight) : bool := z <? y.
Definition BlockHeight_LessEqual (z y : BlockHeight) : bool := z <=? y.

(** ** Constants of miner.go *)

Definition MaximumPublicKeySize : nat := 100.
Definition PoStProofLength : nat := 192.
Definition ProvingPeriodBlocks : BlockHeight := NewBlockHeight 20000.

(** Modelled from the spec: [proofs.CommitmentBytesLen], declared in
    package proofs; the specification's COMMITMENT_LENGTH. *)
Definition CommitmentBytesLen : nat := 32.

Definition ErrPublicKeyTooBig : Z := 33.
Definition ErrInvalidSector : Z := 34.
Definition ErrSectorCommitted : Z := 35.
Definition ErrStoragemarketCallFailed : Z := 36.
Definition ErrCallerUnauthorized : Z := 37.
Definition ErrInsufficientPledge : Z := 38.
Definition ErrInvalidPoSt : Z := 39.

(** The table [Errors]: every use in the actor indexes it with one of
    the seven codes above. *)
Definition Errors (code : Z) : error :=
  NewCodedRevertError code
    match code with
    | 33 => "public key must be less than 100 bytes"
    | 34 => "sectorID out of range"
    | 35 => "sector already committed"
    | 36 => "call to StorageMarket failed"
    | 37 => "not authorized to call the method"
    | 38 => "not enough pledged"
    | 39 => "PoSt proof did not validate"
    | _ => ""
    end%string.

(** ** Data model *)

Record Ask := mkAsk {
  Price : AttoFIL;
  Expiry : BlockHeight;
  ID : Z
}.

(** [types.Commitments]: three 32-byte arrays. *)
Record Commitments := mkCommitments {
  CommD : Bytes;
  CommR : Bytes;
  CommRStar : Bytes
}.

Record State := mkState {
  Owner : Address;
  PeerID : peer_ID;
  PublicKey : Bytes;
  PledgeSectors : Z;
  Collateral : AttoFIL;
  Asks : list Ask;
  NextAskID : Z;
  SectorCommitments : gmap string Commitments;
  LastUsedSectorID : N;
  ProvingPeriodStart : option BlockHeight;
  LastPoSt : option BlockHeight;
  Power : Z
}.

(** Field assignments [state.F = v]. *)
Definition set_PeerID (v : peer_ID) (s : State) : State :=
  mkState (Owner s) v (PublicKey s) (PledgeSectors s) (Collateral s) (Asks s)
    (NextAskID s) (SectorCommitments s) (LastUsedSectorID s)
    (ProvingPeriodStart s) (LastPoSt s) (Power s).
Definition set_Asks (v : list Ask) (s : State) : State :=
  mkState (Owner s) (PeerID s) (PublicKey s) (PledgeSectors s) (Collateral s) v
    (NextAskID s) (SectorCommitments s) (LastUsedSectorID s)
    (ProvingPeriodStart s) (LastPoSt s) (Power s).
Definition set_NextAskID (v : Z) (s : State) : State :=
  mkState (Owner s) (PeerID s) (PublicKey s) (PledgeSectors s) (Collateral s)
    (Asks s) v (SectorCommitments s) (LastUsedSectorID s)
    (ProvingPeriodStart s) (LastPoSt s) (Power s).
Definition set_SectorCommitments (v : gmap string Commitments) (s : State) : State :=
  mkState (Owner s) (PeerID s) (PublicKey s) (PledgeSectors s) (Collateral s)
    (Asks s) (NextAskID s) v (LastUsedSectorID s)
    (ProvingPeriodStart s) (LastPoSt s) (Power s).
Definition set_LastUsedSectorID (v : N) (s : State) : State :=
  mkState (Owner s) (PeerID s) (PublicKey s) (PledgeSectors s) (Collateral s)
    (Asks s) (NextAskID s) (SectorCommitments s) v
    (ProvingPeriodStart s) (LastPoSt s) (Power s).
Definition set_ProvingPeriodStart (v : option BlockHeight) (s : State) : State :=
  mkState (Owner s) (PeerID s) (PublicKey s) (PledgeSectors s) (Collateral s)
    (Asks s) (NextAskID s) (SectorCommitments s) (LastUsedSectorID s)
    v (LastPoSt s) (Power s).
Definition set_LastPoSt (v : option BlockHeight) (s : State) : State :=
  mkState (Owner s) (PeerID s) (PublicKey s) (PledgeSectors s) (Collateral s)
    (Asks s) (NextAskID s) (SectorCommitments s) (LastUsedSectorID s)
    (ProvingPeriodStart s) v (Power s).
Definition set_Power (v : Z) (s : State) : State :=
  mkState (Owner s) (PeerID s) (PublicKey s) (PledgeSectors s) (Collateral s)
    (Asks s) (NextAskID s) (SectorCommitments s) (LastUsedSectorID s)
    (ProvingPeriodStart s) (LastPoSt s) v.

(** [NewState]: the state an actor starts from. *)
Definition NewState (owner : Address) (key : Bytes) (pledge : Z)
    (pid : peer_ID) (collateral : AttoFIL) : State :=
  {| Owner := owner;
     PeerID := pid;
     PublicKey := key;
     PledgeSectors := pledge;
     Collateral := collateral;
     Asks := [];
     NextAskID := 0;
     SectorCommitments := ∅;
     LastUsedSectorID := 0%N;
     ProvingPeriodStart := None;
     LastPoSt := None;
     Power := 0 |}.

(** ** The host: VM context, verifier, encoder *)

(** A cross-actor message issued through [ctx.Send]. *)
Record SendRecord := mkSend {
  send_to : Address;
  send_method : string;
  send_value : option AttoFIL;
  send_params : list Z
}.

(** [exec.VMContext], as far as the actor uses it: the sender of the
    message, the chain height, the gas meter's answer to a charge and
    the result of a cross-actor send (returned chunks, exit code,
    error). *)
Record VMContext := mkContext {
  msg_From : Address;
  ctx_BlockHeight : BlockHeight;
  ctx_Charge : N → option error;
  ctx_Send : Address → string → option AttoFIL → list Z →
             list Bytes * Z * option error
}.

Record VerifyPoSTRequest := mkRequest {
  ChallengeSeed : Bytes;
  CommRs : list Bytes;
  Faults : list N;
  PoStProof : Bytes
}.

Record VerifyPoSTResponse := mkResponse { IsValid : bool }.

(** What the actor takes from outside miner.go and the specification
    leaves to the host: the VM's insufficient-gas exit code, the size of
    a PoSt challenge seed, the native PoSt verifier, the CBOR encoder applied to an ask pointer ([None] is
    the nil pointer), and the order in which a [range] over the
    commitments map visits its entries on this run. *)
Class Host := {
  ErrInsufficientGas : Z;
  PoStChallengeSeedBytesLen : nat;
  VerifyPoST : VerifyPoSTRequest → error + VerifyPoSTResponse;
  DumpObject : option Ask → error + Bytes;
  mapRange : gmap string Commitments → list (string * Commitments)
}.

Definition StorageMarketAddress : Address := "storagemarket".

(** ** Helpers of the Go runtime and standard library *)

(** [strconv.FormatUint(x, 10)]. *)
Definition FormatUint (x : N) : string := pretty x.

(** [big.Int.IsUint64] and [big.Int.Uint64]; the actor calls the latter
    only behind the former, where it is the identity. *)
Definition IsUint64 (x : Z) : bool := (0 <=? x) && (x <? 2 ^ 64).
Definition Uint64 (x : Z) : Z := x mod 2 ^ 64.

(** [copy(dst[:], src)] into a zeroed array of [n] bytes. *)
Definition copyInto (n : nat) (src : Bytes) : Bytes :=
  take n src ++ replicate (n - length src)%nat x00.

(** ** Actor callbacks: a state monad with errors and an outbox *)

Inductive Res (A : Type) :=
  | Done (a : A)
  | Abort (e : error)
  | Panic.
Arguments Done {A} a.
Arguments Abort {A} e.
Arguments Panic {A}.

(** A callback run under [actor.WithState] works on the loaded state
    and may issue sends. *)
Definition Call (A : Type) : Type :=
  State → list SendRecord → Res A * State * list SendRecord.

#[export] Instance Call_ret : MRet Call := λ A a s out, (Done a, s, out).

#[export] Instance Call_bind : MBind Call := λ A B k m s out,
  match m s out with
  | (Done a, s', out') => k a s' out'
  | (Abort e, s', out') => (Abort e, s', out')
  | (Panic, s', out') => (Panic, s', out')
  end.

Definition getState : Call State := λ s out, (Done s, s, out).
Definition modifyState (f : State → State) : Call unit :=
  λ s out, (Done tt, f s, out).
Definition throw {A} (e : error) : Call A := λ s out, (Abort e, s, out).
Definition panic {A} : Call A := λ s out, (Panic, s, out).
Definition send (ctx : VMContext) (to : Address) (method : string)
    (value : option AttoFIL) (params : list Z)
    : Call (list Bytes * Z * option error) :=
  λ s out, (Done (ctx_Send ctx to method value params), s,
            out ++ [mkSend to method value params]).

(** What a method call leaves behind. [Returns ret code err] is a Go
    return of the method's values, its [uint8] exit code and its
    [error]; [Panics] is a run-time panic. *)
Inductive Outcome (A : Type) :=
  | Returns (ret : A) (code : Z) (err : option error)
  | Panics.
Arguments Returns {A} ret code err.
Arguments Panics {A}.

Record Run (A : Type) := mkRun {
  outcome : Outcome A;
  storage : State;
  outbox : list SendRecord
}.
Arguments mkRun {A} outcome storage outbox.
Arguments outcome {A} r.
Arguments storage {A} r.
Arguments outbox {A} r.

(** Modelled from the spec: [actor.WithState] of package actor, which is
    not among the sources. It loads the persisted state, runs the
    callback on it and commits the updated state atomically: either the
    full mutation is persisted or, when the callback fails, none of it. *)
Definition WithState {A} (stored : State) (f : Call A)
    : Res A * State * list SendRecord :=
  match f stored [] with
  | (Done a, s', out) => (Done a, s', out)
  | (Abort e, _, out) => (Abort e, stored, out)
  | (Panic, _, out) => (Panic, stored, out)
  end.

(** ** Exported methods *)

Section Actor.
Context {host : Host}.

(** The gas prelude shared by every exported method: [ctx.Charge(100)],
    and on refusal an immediate return with the value [zero]. *)
Definition charged {A} (ctx : VMContext) (stored : State) (zero : A)
    (body : Run A) : Run A :=
  match ctx_Charge ctx 100%N with
  | Some err =>
      mkRun (Returns zero ErrInsufficientGas
               (Some (RevertErrorWrap err "Insufficient gas"))) stored []
  | None => body
  end.

(** The loop of [AddAsk] that keeps the asks not yet expired:
    [state.Asks = state.Asks[:0]] followed by an [append] for every ask
    [a] with [ctx.BlockHeight().LessThan(a.Expiry)]. *)
Definition pruneAsks (height : BlockHeight) (asks : list Ask) : list Ask :=
  fold_left
    (λ kept a,
       if BlockHeight_LessThan height (Expiry a) then kept ++ [a] else kept)
    asks [].

Definition AddAsk_callback (ctx : VMContext) (price : AttoFIL) (expiry : Z)
    : Call Z :=
  state ← getState;
  if decide (msg_From ctx ≠ Owner state)
  then throw (Errors ErrCallerUnauthorized)
  else
    let id := NextAskID state in
    modifyState (λ s, set_NextAskID (NextAskID s + 1) s);;
    modifyState (λ s, set_Asks (pruneAsks (ctx_BlockHeight ctx) (Asks s)) s);;
    if negb (IsUint64 expiry)
    then throw (NewRevertError "expiry was invalid")
    else
      let expiryBH := NewBlockHeight (Uint64 expiry) in
      modifyState (λ s, set_Asks
        (Asks s
           ++ [mkAsk price (BlockHeight_Add (ctx_BlockHeight ctx) expiryBH) id])
        s);;
      mret id.

(** [AddAsk]: returns the ask id ([None] is Go's nil). The callback's
    value is always a [*big.Int], so the type assertion that follows
    [WithState] in the source always holds; the same goes for the other
    methods. *)
Definition AddAsk (ctx : VMContext) (stored : State) (price : AttoFIL)
    (expiry : Z) : Run (option Z) :=
  charged ctx stored None
    match WithState stored (AddAsk_callback ctx price expiry) with
    | (Done askID, s, out) => mkRun (Returns (Some askID) 0 None) s out
    | (Abort err, s, out) => mkRun (Returns None (CodeError err) (Some err)) s out
    | (Panic, s, out) => mkRun Panics s out
    end.

(** The search loop of [GetAsk]: the first ask [a] with
    [a.ID.Cmp(askid) == 0], or the nil pointer. *)
Fixpoint findAsk (askid : Z) (asks : list Ask) : option Ask :=
  match asks with
  | [] => None
  | a :: rest => if ID a =? askid then Some a else findAsk askid rest
  end.

Definition GetAsk_callback (askid : Z) : Call Bytes :=
  state ← getState;
  let ask := findAsk askid (Asks state) in
  match DumpObject ask with
  | inl err => throw err
  | inr out => mret out
  end.

Definition GetAsk (ctx : VMContext) (stored : State) (askid : Z)
    : Run (option Bytes) :=
  charged ctx stored None
    match WithState stored (GetAsk_callback askid) with
    | (Done ask, s, out) => mkRun (Returns (Some ask) 0 None) s out
    | (Abort err, s, out) => mkRun (Returns None (CodeError err) (Some err)) s out
    | (Panic, s, out) => mkRun Panics s out
    end.

Definition CommitSector_callback (ctx : VMContext) (sectorID : N)
    (commD commR commRStar : Bytes) : Call unit :=
  let sectorIDstr := FormatUint sectorID in
  state ← getState;
  if decide (msg_From ctx ≠ Owner state)
  then throw (Errors ErrCallerUnauthorized)
  else
    match SectorCommitments state !! sectorIDstr with
    | Some _ => throw (Errors ErrSectorCommitted)
    | None =>
        (if Power state =? 0
         then modifyState (set_ProvingPeriodStart (Some (ctx_BlockHeight ctx)))
         else mret tt);;
        let inc := 1 in
        modifyState (λ s, set_Power (Power s + inc) s);;
        let comms := mkCommitments (copyInto CommitmentBytesLen commD)
                       (copyInto CommitmentBytesLen commR)
                       (copyInto CommitmentBytesLen commRStar) in
        modifyState (set_LastUsedSectorID sectorID);;
        modifyState (λ s, set_SectorCommitments
          (<[sectorIDstr := comms]> (SectorCommitments s)) s);;
        reply ← send ctx StorageMarketAddress "updatePower" None [inc];
        match reply with
        | (_, _, Some err) => throw err
        | (_, ret, None) =>
            if decide (ret ≠ 0)
            then throw (Errors ErrStoragemarketCallFailed)
            else mret tt
        end
    end.

Definition CommitSector (ctx : VMContext) (stored : State) (sectorID : N)
    (commD commR commRStar proof : Bytes) : Run unit :=
  charged ctx stored tt
    (if decide (length commD ≠ CommitmentBytesLen)
     then mkRun (Returns tt 0 (Some (NewRevertError "invalid sized commD")))
            stored []
     else if decide (length commR ≠ CommitmentBytesLen)
     then mkRun (Returns tt 0 (Some (NewRevertError "invalid sized commR")))
            stored []
     else if decide (length commRStar ≠ CommitmentBytesLen)
     then mkRun (Returns tt 0 (Some (NewRevertError "invalid sized commRStar")))
            stored []
     else
       match WithState stored
               (CommitSector_callback ctx sectorID commD commR commRStar) with
       | (Done _, s, out) => mkRun (Returns tt 0 None) s out
       | (Abort err, s, out) => mkRun (Returns tt (CodeError err) (Some err)) s out
       | (Panic, s, out) => mkRun Panics s out
       end).

Definition UpdatePeerID_callback (ctx : VMContext) (pid : peer_ID) : Call unit :=
  storage ← getState;
  if decide (msg_From ctx ≠ Owner storage)
  then throw (Errors ErrCallerUnauthorized)
  else modifyState (set_PeerID pid).

Definition UpdatePeerID (ctx : VMContext) (stored : State) (pid : peer_ID)
    : Run unit :=
  charged ctx stored tt
    match WithState stored (UpdatePeerID_callback ctx pid) with
    | (Done _, s, out) => mkRun (Returns tt 0 None) s out
    | (Abort err, s, out) => mkRun (Returns tt (CodeError err) (Some err)) s out
    | (Panic, s, out) => mkRun Panics s out
    end.

(** The request [SubmitPoSt] hands to the verifier: a zero challenge
    seed, the comm-r of every committed sector in the order the [range]
    yields them, no faults, and the proof copied into a 192-byte array. *)
Definition postRequest (state : State) (proof : Bytes) : VerifyPoSTRequest :=
  let commRs := (λ kv, CommR kv.2) <$> mapRange (SectorCommitments state) in
  let postProof := copyInto PoStProofLength proof in
  mkRequest (replicate PoStChallengeSeedBytesLen x00) commRs [] postProof.

(** The specification leaves open what [SubmitPoSt] does while the
    proving period is unset; in Go, [state.ProvingPeriodStart.Add] is
    then a method call through a nil pointer, and the callback panics. *)
Definition SubmitPoSt_callback (ctx : VMContext) (proof : Bytes) : Call unit :=
  state ← getState;
  if decide (msg_From ctx ≠ Owner state)
  then throw (Errors ErrCallerUnauthorized)
  else
    match VerifyPoST (postRequest state proof) with
    | inl err => throw (RevertErrorWrap err "failed to verify PoSt")
    | inr res =>
        if negb (IsValid res)
        then throw (Errors ErrInvalidPoSt)
        else
          match ProvingPeriodStart state with
          | None => panic
          | Some start =>
              let provingPeriodEnd :=
                BlockHeight_Add start ProvingPeriodBlocks in
              if BlockHeight_LessEqual (ctx_BlockHeight ctx) provingPeriodEnd
              then
                modifyState (set_ProvingPeriodStart (Some provingPeriodEnd));;
                modifyState (set_LastPoSt (Some (ctx_BlockHeight ctx)))
              else
                throw (NewRevertError "submitted PoSt late, need to pay a fee")
          end
    end.

Definition SubmitPoSt (ctx : VMContext) (stored : State) (proof : Bytes)
    : Run unit :=
  charged ctx stored tt
    (if decide (length proof ≠ PoStProofLength)
     then mkRun (Returns tt 0 (Some (NewRevertError "invalid sized proof")))
            stored []
     else
       match WithState stored (SubmitPoSt_callback ctx proof) with
       | (Done _, s, out) => mkRun (Returns tt 0 None) s out
       | (Abort err, s, out) => mkRun (Returns tt (CodeError err) (Some err)) s out
       | (Panic, s, out) => mkRun Panics s out
       end).

(** ** Sequences of messages *)

Record AskCall := mkAskCall {
  ask_ctx : VMContext;
  ask_price : AttoFIL;
  ask_expiry : Z
}.

(** One successful [AddAsk]: the state before, the id returned, the
    state after. *)
Definition AskStep : Type := State * Z * State.

(** Applies a sequence of [AddAsk] messages, each to the state the
    previous one left; [None] as soon as one of them is not successful. *)
Fixpoint runAddAsks (s : State) (calls : list AskCall) : option (list AskStep) :=
  match calls with
  | [] => Some []
  | c :: rest =>
      let r := AddAsk (ask_ctx c) s (ask_price c) (ask_expiry c) in
      match outcome r with
      | Returns (Some id) 0 None =>
          steps ← runAddAsks (storage r) rest;
          Some ((s, id, storage r) :: steps)
      | _ => None
      end
  end.

Record CommitCall := mkCommitCall {
  commit_ctx : VMContext;
  commit_sectorID : N;
  commit_commD : Bytes;
  commit_commR : Bytes;
  commit_commRStar : Bytes;
  commit_proof : Bytes
}.

(** Applies a sequence of [CommitSector] messages; [None] as soon as
    one of them is not successful. *)
Fixpoint runCommitSectors (s : State) (calls : list CommitCall) : option State :=
  match calls with
  | [] => Some s
  | c :: rest =>
      let r := CommitSector (commit_ctx c) s (commit_sectorID c)
                 (commit_commD c) (commit_commR c) (commit_commRStar c)
                 (commit_proof c) in
      match outcome r with
      | Returns _ 0 None => runCommitSectors (storage r) rest
      | _ => None
      end
  end.

(** ** Read-only methods *)

(** Modelled from the spec: [errors.NewFaultErrorf] of package vm/errors;
    a fault carries no code of its own and aborts the method with a
    non-zero exit code, here the generic 1. *)
Definition NewFaultError (msg : string) : error := mkError Fault 1 msg.

(** The loop of [GetAsks]: appends the id of every ask, and stops with
    a fault at the first id that is not a [uint64]. *)
Fixpoint collectAskIDs (asks : list Ask) (askids : list Z) : error + list Z :=
  match asks with
  | [] => inr askids
  | ask :: rest =>
      if negb (IsUint64 (ID ask))
      then inl (NewFaultError "miner ask has invalid ID (bad invariant)")
      else collectAskIDs rest (askids ++ [Uint64 (ID ask)])
  end.

Definition GetAsks_callback : Call (list Z) :=
  state ← getState;
  match collectAskIDs (Asks state) [] with
  | inl err => throw err
  | inr askids => mret askids
  end.

(** [GetAsks]: a nil slice is the empty list. *)
Definition GetAsks (ctx : VMContext) (stored : State) : Run (list Z) :=
  charged ctx stored []
    match WithState stored GetAsks_callback with
    | (Done askids, s, out) => mkRun (Returns askids 0 None) s out
    | (Abort err, s, out) => mkRun (Returns [] (CodeError err) (Some err)) s out
    | (Panic, s, out) => mkRun Panics s out
    end.

(** The shape shared by the accessors that go through [WithState]: the
    callback returns one field, [zero] is what the method returns next
    to an error. *)
Definition readField {A} (ctx : VMContext) (stored : State) (zero : A)
    (field : State → A) : Run A :=
  charged ctx stored zero
    match WithState stored (state ← getState; mret (field state)) with
    | (Done v, s, out) => mkRun (Returns v 0 None) s out
    | (Abort err, s, out) => mkRun (Returns zero (CodeError err) (Some err)) s out
    | (Panic, s, out) => mkRun Panics s out
    end.

Definition GetOwner (ctx : VMContext) (stored : State) : Run Address :=
  readField ctx stored "" Owner.

Definition GetLastUsedSectorID (ctx : VMContext) (stored : State) : Run N :=
  readField ctx stored 0%N LastUsedSectorID.

(** A nil map reads like the empty map. *)
Definition GetSectorCommitments (ctx : VMContext) (stored : State)
    : Run (gmap string Commitments) :=
  readField ctx stored ∅ SectorCommitments.

Definition GetKey (ctx : VMContext) (stored : State) : Run Bytes :=
  readField ctx stored [] PublicKey.

Definition GetPledge (ctx : VMContext) (stored : State) : Run (option Z) :=
  readField ctx stored None (λ state, Some (PledgeSectors state)).

Definition GetPower (ctx : VMContext) (stored : State) : Run (option Z) :=
  readField ctx stored None (λ state, Some (Power state)).

(** [GetPeerID] and [GetProvingPeriodStart] read the stored chunk with
    [ctx.ReadStorage] and [actor.UnmarshalStorage] and commit nothing. *)
Definition GetPeerID (ctx : VMContext) (stored : State) : Run peer_ID :=
  charged ctx stored ""
    (mkRun (Returns (PeerID stored) 0 None) stored []).

Definition GetProvingPeriodStart (ctx : VMContext) (stored : State)
    : Run (option BlockHeight) :=
  charged ctx stored None
    (mkRun (Returns (ProvingPeriodStart stored) 0 None) stored []).

(** ** Messages *)

(** A message to the actor: one of the fourteen methods of
    [minerExports] with arguments of the listed types. *)
Inductive Method :=
  | addAsk (price : AttoFIL) (expiry : Z)
  | getAsks
  | getAsk (askid : Z)
  | getOwner
  | getLastUsedSectorID
  | commitSector (sectorID : N) (commD commR commRStar proof : Bytes)
  | getKey
  | getPeerID
  | updatePeerID (pid : peer_ID)
  | getPledge
  | getPower
  | submitPoSt (proof : Bytes)
  | getProvingPeriodStart
  | getSectorCommitments.

(** The stored state and the sends a message leaves behind. *)
Definition invoke (ctx : VMContext) (s : State) (m : Method)
    : State * list SendRecord :=
  match m with
  | addAsk price expiry =>
      let r := AddAsk ctx s price expiry in (storage r, outbox r)
  | getAsks => let r := GetAsks ctx s in (storage r, outbox r)
  | getAsk askid => let r := GetAsk ctx s askid in (storage r, outbox r)
  | getOwner => let r := GetOwner ctx s in (storage r, outbox r)
  | getLastUsedSectorID =>
      let r := GetLastUsedSectorID ctx s in (storage r, outbox r)
  | commitSector sectorID commD commR commRStar proof =>
      let r := CommitSector ctx s sectorID commD commR commRStar proof in
      (storage r, outbox r)
  | getKey => let r := GetKey ctx s in (storage r, outbox r)
  | getPeerID => let r := GetPeerID ctx s in (storage r, outbox r)
  | updatePeerID pid => let r := UpdatePeerID ctx s pid in (storage r, outbox r)
  | getPledge => let r := GetPledge ctx s in (storage r, outbox r)
  | getPower => let r := GetPower ctx s in (storage r, outbox r)
  | submitPoSt proof => let r := SubmitPoSt ctx s proof in (storage r, outbox r)
  | getProvingPeriodStart =>
      let r := GetProvingPeriodStart ctx s in (storage r, outbox r)
  | getSectorCommitments =>
      let r := GetSectorCommitments ctx s in (storage r, outbox r)
  end.

(** The state after a sequence of messages, each with its own context
    (sender, height, gas, answers to sends), whatever their outcome. *)
Definition runMessages (s : State) (msgs : list (VMContext * Method)) : State :=
  fold_left (λ st cm, (invoke cm.1 st cm.2).1) msgs s.

(** Applies a sequence of [SubmitPoSt] messages; [None] as soon as one
    of them is not successful. *)
Fixpoint runSubmitPoSts (s : State) (calls : list (VMContext * Bytes))
    : option State :=
  match calls with
  | [] => Some s
  | c :: rest =>
      let r := SubmitPoSt c.1 s c.2 in
      match outcome r with
      | Returns _ 0 None => runSubmitPoSts (storage r) rest
      | _ => None
      end
  end.

(** What the invariants of the ask book say of a state: the ids of the
    stored asks increase strictly along the list, and each is at least
    0 and below [NextAskID]. *)
Definition asksNumbered (s : State) : Prop :=
  StronglySorted (λ a b, ID a < ID b) (Asks s)
  ∧ Forall (λ a, 0 ≤ ID a < NextAskID s) (Asks s).

End Actor.

(** ** The transitions of the stored state *)

(** What one message can do to the stored state: nothing, or one of
    the four writes of [AddAsk], [CommitSector], [UpdatePeerID] and
    [SubmitPoSt], each on a message of the owner. *)
Inductive Transition (ctx : VMContext) (s : State) : State → Prop :=
  | NoChange : Transition ctx s s
  | AskAdded (price : AttoFIL) (expiry : Z) :
      msg_From ctx = Owner s →
      IsUint64 expiry = true →
      Transition ctx s
        (set_Asks
           (filter (λ a, ctx_BlockHeight ctx < Expiry a) (Asks s)
              ++ [mkAsk price (ctx_BlockHeight ctx + expiry) (NextAskID s)])
           (set_NextAskID (NextAskID s + 1) s))
  | SectorCommitted (sectorID : N) (commD commR commRStar : Bytes) :
      msg_From ctx = Owner s →
      (length commD = 32 ∧ length commR = 32 ∧ length commRStar = 32)%nat →
      SectorCommitments s !! FormatUint sectorID = None →
      Transition ctx s
        (set_SectorCommitments
           (<[FormatUint sectorID := mkCommitments commD commR commRStar]>
              (SectorCommitments s))
           (set_LastUsedSectorID sectorID
              (set_Power (Power s + 1)
                 (if Power s =? 0
                  then set_ProvingPeriodStart (Some (ctx_BlockHeight ctx)) s
                  else s))))
  | PeerChanged (pid : peer_ID) :
      msg_From ctx = Owner s →
      Transition ctx s (set_PeerID pid s)
  | PoStAccepted (start : BlockHeight) :
      msg_From ctx = Owner s →
      ProvingPeriodStart s = Some start →
      ctx_BlockHeight ctx ≤ start + ProvingPeriodBlocks →
      Transition ctx s
        (set_LastPoSt (Some (ctx_BlockHeight ctx))
           (set_ProvingPeriodStart (Some (start + ProvingPeriodBlocks)) s)).

(** ** Initialization *)

Abbreviation Cid := string (only parsing).

(** [cid.Undef], the zero content identifier. *)
Definition Undef : Cid := "".

(** [exec.Storage], as far as [InitializeState] uses it. *)
Record ExecStorage := mkExecStorage {
  storage_Put : Bytes → error + Cid;
  storage_Commit : Cid → Cid → option error
}.

(** The calls [InitializeState] makes on the storage, in order. *)
Inductive StorageOp :=
  | OpPut (chunk : Bytes)
  | OpCommit (id old : Cid).

(** Modelled from the spec: [xerrors.Wrap] around an encoder error; the
    wrapped error keeps its code. *)
Definition Wrap (inner : error) (msg : string) : error :=
  mkError (err_kind inner) (err_code inner) (msg +:+ ": " +:+ err_msg inner).

(** [InitializeState]: [initializerData] is [None] for a value that is
    not a [*State]; [dump] is [cbor.DumpObject] on a state. Returns the
    error ([None] is nil) and the storage calls made. *)
Definition InitializeState (dump : State → error + Bytes)
    (store : ExecStorage) (initializerData : option State)
    : option error * list StorageOp :=
  match initializerData with
  | None =>
      (Some (NewFaultError
               "Initial state to miner actor is not a miner.State struct"),
       [])
  | Some minerState =>
      if decide (MaximumPublicKeySize < length (PublicKey minerState))%nat
      then (Some (Errors ErrPublicKeyTooBig), [])
      else
        match dump minerState with
        | inl err => (Some (Wrap err "failed to cbor marshal object"), [])
        | inr stateBytes =>
            match storage_Put store stateBytes with
            | inl err => (Some err, [OpPut stateBytes])
            | inr id =>
                (storage_Commit store id Undef,
                 [OpPut stateBytes; OpCommit id Undef])
            end
        end
  end.

(** ** A sample host, sample messages and the scenarios' states *)

(** A stand-in encoder: one byte for the nil pointer, a tag and the
    ask's fields reduced to bytes otherwise. *)
Definition sampleDump (ask : option Ask) : error + Bytes :=
  match ask with
  | None => inr [xf6]
  | Some a =>
      inr (x83 :: ((λ v, default x00 (Byte.of_N (Z.to_N (v mod 256))))
                     <$> [Price a; Expiry a; ID a]))
  end.

(** A host whose verifier accepts every proof. *)
Definition sampleHost : Host :=
  {| ErrInsufficientGas := 36;
     PoStChallengeSeedBytesLen := 32;
     VerifyPoST := λ _, inr (mkResponse true);
     DumpObject := sampleDump;
     mapRange := map_to_list |}.

(** A message from [sender] at [height], with enough gas, whose
    storage-market send answers with exit code [ret]. *)
Definition message (sender : Address) (height : BlockHeight) (ret : Z)
    : VMContext :=
  mkContext sender height (λ _, None) (λ _ _ _ _, ([], ret, None)).

(** A message whose storage-market send fails in the VM. *)
Definition messageSendFails (sender : Address) (height : BlockHeight)
    (e : error) : VMContext :=
  mkContext sender height (λ _, None) (λ _ _ _ _, ([], 0, Some e)).

Definition genesis : State := NewState "O" [] 10 "peer" 0.

Definition zeros (n : nat) : Bytes := replicate n x00.

(** Scenario S1 of the specification: three asks by the owner. *)
Definition askCalls : list AskCall :=
  [ mkAskCall (message "O" 10 0) 5 100;
    mkAskCall (message "O" 50 0) 7 50;
    mkAskCall (message "O" 200 0) 9 10 ].

(** Scenario S3: sector 1 committed at height 1000. *)
Definition commitCalls : list CommitCall :=
  [ mkCommitCall (message "O" 1000 0) 1 (zeros 32) (zeros 32) (zeros 32) [] ].

Definition afterCommit : State :=
  storage (CommitSector (host := sampleHost) (message "O" 1000 0) genesis 1
             (zeros 32) (zeros 32) (zeros 32) []).

Definition afterAsks : State :=
  storage (AddAsk (host := sampleHost) (message "O" 50 0)
    (storage (AddAsk (host := sampleHost) (message "O" 10 0) genesis 5 100))
    7 50).

(** The three steps of scenario S1. *)
Definition askSteps : list AskStep :=
  let s1 := storage (AddAsk (host := sampleHost) (message "O" 10 0) genesis 5 100) in
  let s3 := storage (AddAsk (host := sampleHost) (message "O" 200 0) afterAsks 9 10) in
  [ (genesis, 0, s1); (s1, 1, afterAsks); (afterAsks, 2, s3) ].

Definition transportError : error := mkError Fault 2 "send failed".

(** A storage that accepts every chunk under the name "root", and an
    encoder that writes the public key. *)
Definition sampleStorage : ExecStorage :=
  mkExecStorage (λ _, inr "root") (λ _ _, None).

Definition sampleStateDump (s : State) : error + Bytes := inr (PublicKey s).

(** A message whose gas charge the meter refuses. *)
Definition outOfGas : error := mkError Revert 36 "out of gas".

Definition messageNoGas (sender : Address) (height : BlockHeight) : VMContext :=
  mkContext sender height (λ _, Some outOfGas) (λ _ _ _ _, ([], 0, None)).

(** A host whose verifier turns every proof down. *)
Definition rejectingHost : Host :=
  {| ErrInsufficientGas := 36;
     PoStChallengeSeedBytesLen := 32;
     VerifyPoST := λ _, inr (mkResponse false);
     DumpObject := sampleDump;
     mapRange := map_to_list |}.

(** A day in the life of the miner: an ask, a stranger's attempt, a
    commitment, a PoSt in time, a second commitment, a new peer id. *)
Definition history : list (VMContext * Method) :=
  [ (message "O" 10 0, addAsk 5 100);
    (message "X" 20 0, updatePeerID "hijack");
    (message "O" 1000 0, commitSector 1 (zeros 32) (zeros 32) (zeros 32) []);
    (message "O" 5000 0, submitPoSt (zeros 192));
    (message "O" 6000 0, commitSector 2 (zeros 32) (zeros 32) (zeros 32) []);
    (message "O" 7000 0, updatePeerID "moved");
    (message "X" 7001 0, getAsks) ].

Definition afterHistory : State := runMessages (host := sampleHost) genesis history.

(** Two PoSts in a row for the sector of scenario S3. *)
Definition postCalls : list (VMContext * Bytes) :=
  [ (message "O" 5000 0, zeros 192); (message "O" 30000 0, zeros 192) ].

Definition afterPosts : State :=
  storage (SubmitPoSt (host := sampleHost) (message "O" 30000 0)
    (storage (SubmitPoSt (host := sampleHost) (message "O" 5000 0)
                afterCommit (zeros 192)))
    (zeros 192)).

(** A state whose second ask has an id that is no [uint64]. *)
Definition corruptAsks : State :=
  set_Asks [mkAsk 5 110 0; mkAsk 7 100 (-1); mkAsk 9 210 2] genesis.

(** * Properties *)

(** Unfolds a method down to the callback's steps. *)
Ltac unfold_method :=
  unfold AddAsk, GetAsk, CommitSector, UpdatePeerID, SubmitPoSt, charged,
    WithState, AddAsk_callback, GetAsk_callback, CommitSector_callback,
    UpdatePeerID_callback, SubmitPoSt_callback,
    mbind, mret, Call_bind, Call_ret, getState, modifyState, throw, panic, send,
    BlockHeight_LessThan, BlockHeight_LessEqual, BlockHeight_Add,
    NewBlockHeight.

(** Settles a closed goal by evaluation. *)
Ltac evaluated := vm_compute; reflexivity.

Section Properties.
Context {host : Host}.

Lemma copyInto_exact (n : nat) (src : Bytes) :
  length src = n → copyInto n src = src.
Proof.
  intros <-. unfold copyInto.
  rewrite firstn_all, Nat.sub_diag. apply app_nil_r.
Qed.

Lemma pruneAsks_from (height : BlockHeight) (asks kept : list Ask) :
  fold_left
    (λ kept a,
       if BlockHeight_LessThan height (Expiry a) then kept ++ [a] else kept)
    asks kept
  = kept ++ filter (λ a, height < Expiry a) asks.
Proof.
  unfold BlockHeight_LessThan.
  revert kept. induction asks as [|a asks IH]; intros kept; simpl.
  - by rewrite app_nil_r.
  - rewrite IH. destruct (Z.ltb_spec height (Expiry a)).
    + rewrite filter_cons_True by done. by rewrite <- app_assoc.
    + rewrite filter_cons_False by lia. done.
Qed.

Lemma pruneAsks_filter (height : BlockHeight) (asks : list Ask) :
  pruneAsks height asks = filter (λ a, height < Expiry a) asks.
Proof. unfold pruneAsks. by rewrite pruneAsks_from. Qed.

Lemma findAsk_app_hit (askid : Z) (pre post : list Ask) (a : Ask) :
  Forall (λ b, ID b ≠ askid) pre → ID a = askid →
  findAsk askid (pre ++ a :: post) = Some a.
Proof.
  intros Hpre Ha. induction Hpre as [|b pre Hb _ IH]; simpl.
  - by rewrite (proj2 (Z.eqb_eq _ _) Ha).
  - by rewrite (proj2 (Z.eqb_neq _ _) Hb).
Qed.

Lemma findAsk_miss (askid : Z) (asks : list Ask) :
  Forall (λ b, ID b ≠ askid) asks → findAsk askid asks = None.
Proof.
  induction 1 as [|b asks Hb _ IH]; simpl; [done|].
  by rewrite (proj2 (Z.eqb_neq _ _) Hb).
Qed.

(** C3 (as amended): a mutating method called by a sender other than
    the owner leaves the stored state as it was and sends nothing; when
    its gas charge is accepted and its byte arguments pass its size
    checks, which run before the owner is looked at, it returns exit
    code 37 with [ErrCallerUnauthorized]. *)
Theorem unauthorized_caller_rejected (ctx : VMContext) (stored : State) :
  msg_From ctx ≠ Owner stored →
  (∀ price expiry,
     storage (AddAsk ctx stored price expiry) = stored
     ∧ outbox (AddAsk ctx stored price expiry) = []
     ∧ (ctx_Charge ctx 100%N = None →
        outcome (AddAsk ctx stored price expiry)
        = Returns None 37 (Some (Errors ErrCallerUnauthorized))))
  ∧ (∀ sectorID commD commR commRStar proof,
       storage (CommitSector ctx stored sectorID commD commR commRStar proof)
       = stored
       ∧ outbox (CommitSector ctx stored sectorID commD commR commRStar proof)
         = []
       ∧ (ctx_Charge ctx 100%N = None →
          length commD = 32%nat → length commR = 32%nat →
          length commRStar = 32%nat →
          outcome (CommitSector ctx stored sectorID commD commR commRStar proof)
          = Returns tt 37 (Some (Errors ErrCallerUnauthorized))))
  ∧ (∀ pid,
       storage (UpdatePeerID ctx stored pid) = stored
       ∧ outbox (UpdatePeerID ctx stored pid) = []
       ∧ (ctx_Charge ctx 100%N = None →
          outcome (UpdatePeerID ctx stored pid)
          = Returns tt 37 (Some (Errors ErrCallerUnauthorized))))
  ∧ (∀ proof,
       storage (SubmitPoSt ctx stored proof) = stored
       ∧ outbox (SubmitPoSt ctx stored proof) = []
       ∧ (ctx_Charge ctx 100%N = None →
          length proof = 192%nat →
          outcome (SubmitPoSt ctx stored proof)
          = Returns tt 37 (Some (Errors ErrCallerUnauthorized)))).
Proof.
  intros Hfrom. split_and!; intros; unfold_method;
    unfold CommitmentBytesLen, PoStProofLength;
    (split_and!; [| |intros ->; intros]);
    try (destruct (ctx_Charge ctx 100%N); [done|]);
    repeat case_decide; done.
Qed.

(** C5: with the gas charge accepted, an owner-sent [CommitSector] with
    32-byte commitments for a sector id already keyed in
    [SectorCommitments] returns exit code 35 with [ErrSectorCommitted],
    leaves the stored state as it was and sends nothing. *)
Theorem CommitSector_duplicate_rejected (ctx : VMContext) (stored : State)
    (sectorID : N) (commD commR commRStar proof : Bytes) (old : Commitments) :
  ctx_Charge ctx 100%N = None →
  msg_From ctx = Owner stored →
  length commD = 32%nat → length commR = 32%nat → length commRStar = 32%nat →
  SectorCommitments stored !! FormatUint sectorID = Some old →
  CommitSector ctx stored sectorID commD commR commRStar proof
  = mkRun (Returns tt 35 (Some (Errors ErrSectorCommitted))) stored [].
Proof.
  intros Hgas Hfrom HD HR HS Hold. unfold_method. rewrite Hgas.
  rewrite 3!decide_False by (unfold CommitmentBytesLen; congruence).
  rewrite decide_False by (intros Hne; by apply Hne).
  by rewrite Hold.
Qed.

(** What a [CommitSector] that passed its four guards has written when
    the storage-market send is issued. *)
Lemma CommitSector_success_inv (ctx : VMContext) (stored : State)
    (sectorID : N) (commD commR commRStar proof : Bytes) :
  outcome (CommitSector ctx stored sectorID commD commR commRStar proof)
  = Returns tt 0 None →
  ctx_Charge ctx 100%N = None
  ∧ (length commD = 32 ∧ length commR = 32 ∧ length commRStar = 32)%nat
  ∧ msg_From ctx = Owner stored
  ∧ SectorCommitments stored !! FormatUint sectorID = None
  ∧ storage (CommitSector ctx stored sectorID commD commR commRStar proof)
    = set_SectorCommitments
        (<[FormatUint sectorID := mkCommitments commD commR commRStar]>
           (SectorCommitments stored))
        (set_LastUsedSectorID sectorID
           (set_Power (Power stored + 1)
              (if Power stored =? 0
               then set_ProvingPeriodStart (Some (ctx_BlockHeight ctx)) stored
               else stored))).
Proof.
  unfold_method. destruct (ctx_Charge ctx 100%N); [done|].
  unfold CommitmentBytesLen.
  repeat case_decide; try done.
  destruct (SectorCommitments stored !! FormatUint sectorID) eqn:Hkey; [done|].
  destruct (decide (msg_From ctx = Owner stored)) as [Hfrom|]; [|done].
  intros Hrun. split_and!; try done.
  rewrite !copyInto_exact by done.
  destruct (Power stored =? 0); simpl in *;
    destruct (ctx_Send ctx StorageMarketAddress "updatePower" None [1])
      as [[chunks ret] [e|]]; simpl in *; try done;
    case_decide; simpl in *; done.
Qed.

(** C2: when [sectorID] is not yet keyed in [SectorCommitments], a
    successful owner-sent [CommitSector] with 32-byte commitments
    increments [Power] by 1, records the commitment tuple under the
    sector id (and touches no other sector id), sets [LastUsedSectorID]
    to the sector id and, if [Power] was 0 before the call, sets
    [ProvingPeriodStart] to the current height. *)
Theorem CommitSector_records_sector (ctx : VMContext) (stored : State)
    (sectorID : N) (commD commR commRStar proof : Bytes) :
  SectorCommitments stored !! FormatUint sectorID = None →
  msg_From ctx = Owner stored →
  length commD = 32%nat → length commR = 32%nat → length commRStar = 32%nat →
  outcome (CommitSector ctx stored sectorID commD commR commRStar proof)
  = Returns tt 0 None →
  Power (storage (CommitSector ctx stored sectorID commD commR commRStar proof))
  = Power stored + 1
  ∧ SectorCommitments
      (storage (CommitSector ctx stored sectorID commD commR commRStar proof))
    !! FormatUint sectorID
    = Some (mkCommitments commD commR commRStar)
  ∧ (∀ other : N, other ≠ sectorID →
       SectorCommitments
         (storage (CommitSector ctx stored sectorID commD commR commRStar proof))
       !! FormatUint other
       = SectorCommitments stored !! FormatUint other)
  ∧ LastUsedSectorID
      (storage (CommitSector ctx stored sectorID commD commR commRStar proof))
    = sectorID
  ∧ (Power stored = 0 →
       ProvingPeriodStart
         (storage (CommitSector ctx stored sectorID commD commR commRStar proof))
       = Some (ctx_BlockHeight ctx)).
Proof.
  intros _ _ _ _ _ Hrun.
  destruct (CommitSector_success_inv _ _ _ _ _ _ _ Hrun)
    as (_ & _ & _ & _ & ->).
  simpl. split_and!.
  - done.
  - apply lookup_insert_eq.
  - intros other Hother. apply lookup_insert_ne.
    unfold FormatUint. intros Heq. by apply (inj pretty) in Heq.
  - done.
  - by intros ->.
Qed.

(** C9: when an owner-sent [CommitSector] has passed the gas, size,
    authorization and duplicate checks, a storage-market send that
    completes with a non-zero exit code makes the method return exit
    code 36 with [ErrStoragemarketCallFailed], and a send that fails
    makes it return that send's error with its code; in both cases the
    stored state is left as it was. *)
Theorem CommitSector_storage_market_failure (ctx : VMContext) (stored : State)
    (sectorID : N) (commD commR commRStar proof : Bytes)
    (chunks : list Bytes) (ret : Z) (sendErr : option error) :
  ctx_Charge ctx 100%N = None →
  length commD = 32%nat → length commR = 32%nat → length commRStar = 32%nat →
  msg_From ctx = Owner stored →
  SectorCommitments stored !! FormatUint sectorID = None →
  ctx_Send ctx StorageMarketAddress "updatePower" None [1]
  = (chunks, ret, sendErr) →
  (sendErr = None → ret ≠ 0 →
     CommitSector ctx stored sectorID commD commR commRStar proof
     = mkRun (Returns tt 36 (Some (Errors ErrStoragemarketCallFailed))) stored
         [mkSend StorageMarketAddress "updatePower" None [1]])
  ∧ (∀ e, sendErr = Some e →
       CommitSector ctx stored sectorID commD commR commRStar proof
       = mkRun (Returns tt (CodeError e) (Some e)) stored
           [mkSend StorageMarketAddress "updatePower" None [1]]).
Proof.
  intros Hgas HD HR HS Hfrom Hkey Hsend.
  assert (CommitSector ctx stored sectorID commD commR commRStar proof
          = match sendErr with
            | Some e => mkRun (Returns tt (CodeError e) (Some e)) stored
                          [mkSend StorageMarketAddress "updatePower" None [1]]
            | None =>
                if decide (ret ≠ 0)
                then mkRun (Returns tt 36
                              (Some (Errors ErrStoragemarketCallFailed))) stored
                       [mkSend StorageMarketAddress "updatePower" None [1]]
                else mkRun (Returns tt 0 None)
                       (storage (CommitSector ctx stored sectorID commD commR
                                   commRStar proof))
                       [mkSend StorageMarketAddress "updatePower" None [1]]
            end) as Hcase.
  { unfold_method. rewrite Hgas.
    rewrite 3!decide_False by (unfold CommitmentBytesLen; congruence).
    rewrite decide_False by (intros Hne; by apply Hne).
    rewrite Hkey.
    destruct (Power stored =? 0); simpl; rewrite Hsend;
      destruct sendErr; simpl; try done; by case_decide. }
  split.
  - intros -> Hret. rewrite Hcase. by rewrite decide_True.
  - intros e ->. by rewrite Hcase.
Qed.

(** C1: with the gas charge accepted and the proving period started at
    [start], an owner-sent [SubmitPoSt] with a 192-byte proof the
    verifier accepts succeeds when the current height is at most
    [start + ProvingPeriodBlocks], moving [ProvingPeriodStart] to exactly
    that deadline and [LastPoSt] to the current height; past the
    deadline it reverts and leaves the stored state as it was. *)
Theorem SubmitPoSt_proving_period (ctx : VMContext) (stored : State)
    (proof : Bytes) (start : BlockHeight) (res : VerifyPoSTResponse) :
  ctx_Charge ctx 100%N = None →
  ProvingPeriodStart stored = Some start →
  msg_From ctx = Owner stored →
  length proof = 192%nat →
  VerifyPoST (postRequest stored proof) = inr res →
  IsValid res = true →
  (ctx_BlockHeight ctx ≤ start + ProvingPeriodBlocks →
     outcome (SubmitPoSt ctx stored proof) = Returns tt 0 None
     ∧ storage (SubmitPoSt ctx stored proof)
       = set_LastPoSt (Some (ctx_BlockHeight ctx))
           (set_ProvingPeriodStart (Some (start + ProvingPeriodBlocks)) stored)
     ∧ ProvingPeriodStart (storage (SubmitPoSt ctx stored proof))
       = Some (start + ProvingPeriodBlocks)
     ∧ LastPoSt (storage (SubmitPoSt ctx stored proof))
       = Some (ctx_BlockHeight ctx))
  ∧ (start + ProvingPeriodBlocks < ctx_BlockHeight ctx →
       outcome (SubmitPoSt ctx stored proof)
       = Returns tt 1
           (Some (NewRevertError "submitted PoSt late, need to pay a fee"))
       ∧ storage (SubmitPoSt ctx stored proof) = stored
       ∧ ProvingPeriodStart (storage (SubmitPoSt ctx stored proof))
         = Some start
       ∧ LastPoSt (storage (SubmitPoSt ctx stored proof)) = LastPoSt stored).
Proof.
  intros Hgas Hstart Hfrom Hlen Hverify Hvalid.
  unfold_method. rewrite Hgas.
  rewrite decide_False by (unfold PoStProofLength; congruence).
  rewrite decide_False by (intros Hne; by apply Hne).
  rewrite Hverify, Hvalid, Hstart. simpl.
  split; intros Hheight.
  - by rewrite (proj2 (Z.leb_le _ _) Hheight).
  - by rewrite (proj2 (Z.leb_gt _ _) Hheight).
Qed.

(** C10: [GetAsk] never changes the stored state; with the gas charge
    accepted it returns what the encoder yields for the first stored
    ask, in list order, whose id equals [askid], and what the encoder
    yields for the nil pointer when no stored ask has that id. *)
Theorem GetAsk_first_match (ctx : VMContext) (stored : State) (askid : Z) :
  storage (GetAsk ctx stored askid) = stored
  ∧ outbox (GetAsk ctx stored askid) = []
  ∧ (∀ pre a post bytes,
       ctx_Charge ctx 100%N = None →
       Asks stored = pre ++ a :: post →
       Forall (λ b, ID b ≠ askid) pre → ID a = askid →
       DumpObject (Some a) = inr bytes →
       outcome (GetAsk ctx stored askid) = Returns (Some bytes) 0 None)
  ∧ (∀ bytes,
       ctx_Charge ctx 100%N = None →
       Forall (λ b, ID b ≠ askid) (Asks stored) →
       DumpObject None = inr bytes →
       outcome (GetAsk ctx stored askid) = Returns (Some bytes) 0 None).
Proof.
  unfold_method. split_and!.
  - destruct (ctx_Charge ctx 100%N); [done|].
    by destruct (DumpObject (findAsk askid (Asks stored))).
  - destruct (ctx_Charge ctx 100%N); [done|].
    by destruct (DumpObject (findAsk askid (Asks stored))).
  - intros pre a post bytes -> -> Hpre Ha Hdump.
    by rewrite (findAsk_app_hit _ _ _ _ Hpre Ha), Hdump.
  - intros bytes -> Hnone Hdump. by rewrite (findAsk_miss _ _ Hnone), Hdump.
Qed.

(** What a successful [AddAsk] has written. *)
Lemma AddAsk_success_inv (ctx : VMContext) (stored : State) (price : AttoFIL)
    (expiry id : Z) :
  outcome (AddAsk ctx stored price expiry) = Returns (Some id) 0 None →
  id = NextAskID stored
  ∧ IsUint64 expiry = true
  ∧ storage (AddAsk ctx stored price expiry)
    = set_Asks
        (filter (λ a, ctx_BlockHeight ctx < Expiry a) (Asks stored)
           ++ [mkAsk price (ctx_BlockHeight ctx + expiry) id])
        (set_NextAskID (NextAskID stored + 1) stored).
Proof.
  unfold_method. destruct (ctx_Charge ctx 100%N); [done|].
  case_decide; [done|]. simpl.
  destruct (IsUint64 expiry) eqn:Hfits; simpl; [|done].
  intros [= <-]. split_and!; try done.
  rewrite pruneAsks_filter. unfold Uint64.
  apply andb_prop in Hfits as [Hlo%Z.leb_le Hhi%Z.ltb_lt].
  by rewrite Z.mod_small by lia.
Qed.

(** C8 (as amended): after a successful owner-sent [AddAsk] at height
    [H] with an expiry that fits 64 unsigned bits, the stored asks are
    the earlier asks with [Expiry > H], in their earlier order, followed
    by the new ask with [Expiry = H + expiry]; every ask before the new
    one has [Expiry > H], and so has the new one when [expiry > 0]. *)
Theorem AddAsk_prunes_and_appends (ctx : VMContext) (stored : State)
    (price : AttoFIL) (expiry id : Z) :
  msg_From ctx = Owner stored →
  IsUint64 expiry = true →
  outcome (AddAsk ctx stored price expiry) = Returns (Some id) 0 None →
  Asks (storage (AddAsk ctx stored price expiry))
  = filter (λ a, ctx_BlockHeight ctx < Expiry a) (Asks stored)
      ++ [mkAsk price (ctx_BlockHeight ctx + expiry) id]
  ∧ filter (λ a, ctx_BlockHeight ctx < Expiry a) (Asks stored)
      `sublist_of` Asks stored
  ∧ (∀ a, a ∈ filter (λ a, ctx_BlockHeight ctx < Expiry a) (Asks stored)
          ↔ a ∈ Asks stored ∧ ctx_BlockHeight ctx < Expiry a)
  ∧ (0 < expiry →
       Forall (λ a, ctx_BlockHeight ctx < Expiry a)
         (Asks (storage (AddAsk ctx stored price expiry)))).
Proof.
  intros _ _ Hrun.
  destruct (AddAsk_success_inv _ _ _ _ _ Hrun) as (_ & _ & ->). simpl.
  split_and!.
  - done.
  - apply sublist_filter.
  - intros a. rewrite list_elem_of_filter. tauto.
  - intros Hpos. apply Forall_app. split.
    + apply Forall_forall. by intros a [? _]%list_elem_of_filter.
    + apply Forall_singleton. simpl. lia.
Qed.

(** The ids returned along a run of successful [AddAsk] messages count
    up from the [NextAskID] of the state the run starts in. *)
Lemma runAddAsks_ids (calls : list AskCall) (s : State) (steps : list AskStep) :
  runAddAsks s calls = Some steps →
  (λ st : AskStep, st.1.2) <$> steps
  = seqZ (NextAskID s) (Z.of_nat (length calls))
  ∧ Forall (λ st : AskStep,
      st.1.2 = NextAskID st.1.1 ∧ NextAskID st.2 = NextAskID st.1.1 + 1) steps.
Proof.
  revert s steps. induction calls as [|c calls IH]; intros s steps; simpl.
  - intros [= <-]. by split.
  - destruct (outcome (AddAsk (ask_ctx c) s (ask_price c) (ask_expiry c)))
      as [[id|] code [e|]|] eqn:Hrun; try done;
      destruct code; try done.
    destruct (runAddAsks _ calls) as [rest|] eqn:Hrest; simpl; [|done].
    intros [= <-].
    destruct (AddAsk_success_inv _ _ _ _ _ Hrun) as (-> & _ & Hstored).
    destruct (IH _ _ Hrest) as [Hids Hsteps].
    rewrite Hstored in Hids. simpl in Hids.
    split.
    + rewrite fmap_cons, Hids. simpl fst; simpl snd.
      rewrite (seqZ_cons (NextAskID s)) by lia.
      do 2 f_equal; lia.
    + constructor; [|done]. simpl. by rewrite Hstored.
Qed.

(** C7: along any sequence of successful [AddAsk] messages starting
    from the initial state, the returned ask ids are 0, 1, 2, ... in
    order; each message returns the [NextAskID] of the state it ran on
    and leaves [NextAskID] one higher. *)
Theorem AddAsk_ids_sequential (owner : Address) (key : Bytes) (pledge : Z)
    (pid : peer_ID) (collateral : AttoFIL) (calls : list AskCall)
    (steps : list AskStep) :
  runAddAsks (NewState owner key pledge pid collateral) calls = Some steps →
  (λ st : AskStep, st.1.2) <$> steps = seqZ 0 (Z.of_nat (length calls))
  ∧ Forall (λ st : AskStep,
      st.1.2 = NextAskID st.1.1 ∧ NextAskID st.2 = NextAskID st.1.1 + 1) steps.
Proof. intros Hrun. exact (runAddAsks_ids _ _ _ Hrun). Qed.

(** Along a run of successful [CommitSector] messages [Power] and the
    number of commitments grow in step. *)
Lemma runCommitSectors_power (calls : list CommitCall) (s s' : State) :
  runCommitSectors s calls = Some s' →
  Power s' - Z.of_nat (size (SectorCommitments s'))
  = Power s - Z.of_nat (size (SectorCommitments s)).
Proof.
  revert s. induction calls as [|c calls IH]; intros s; simpl.
  - by intros [= <-].
  - destruct (outcome (CommitSector (commit_ctx c) s (commit_sectorID c)
                (commit_commD c) (commit_commR c) (commit_commRStar c)
                (commit_proof c)))
      as [[] code [e|]|] eqn:Hrun; try done;
      destruct code; try done.
    intros Hrest. rewrite (IH _ Hrest).
    destruct (CommitSector_success_inv _ _ _ _ _ _ _ Hrun)
      as (_ & _ & _ & Hfresh & ->).
    simpl. rewrite map_size_insert_None by done.
    destruct (Power s =? 0); simpl; lia.
Qed.

(** C6: after any sequence of successful [CommitSector] messages
    starting from the initial state, [Power] equals the number of
    entries of [SectorCommitments]. *)
Theorem power_counts_commitments (owner : Address) (key : Bytes) (pledge : Z)
    (pid : peer_ID) (collateral : AttoFIL) (calls : list CommitCall)
    (s : State) :
  runCommitSectors (NewState owner key pledge pid collateral) calls = Some s →
  Power s = Z.of_nat (size (SectorCommitments s)).
Proof.
  intros Hrun. apply runCommitSectors_power in Hrun.
  simpl in Hrun. rewrite map_size_empty in Hrun. lia.
Qed.

(** A failed size check of [CommitSector] or [SubmitPoSt] returns the
    exit code 0 next to its revert error. *)
Lemma size_check_exit_code (ctx : VMContext) (stored : State) :
  ctx_Charge ctx 100%N = None →
  (∀ sectorID commD commR commRStar proof,
     (length commD ≠ 32 ∨ length commR ≠ 32 ∨ length commRStar ≠ 32)%nat →
     ∃ msg,
       CommitSector ctx stored sectorID commD commR commRStar proof
       = mkRun (Returns tt 0 (Some (NewRevertError msg))) stored [])
  ∧ (∀ proof,
       length proof ≠ 192%nat →
       SubmitPoSt ctx stored proof
       = mkRun (Returns tt 0 (Some (NewRevertError "invalid sized proof")))
           stored []).
Proof.
  intros Hgas. split.
  - intros sectorID commD commR commRStar proof Hsizes.
    unfold_method. rewrite Hgas. unfold CommitmentBytesLen.
    repeat case_decide; eauto; lia.
  - intros proof Hsize. unfold_method. rewrite Hgas.
    by rewrite decide_True.
Qed.

(** C4 (the code at the failing input of scenario S6): an owner-sent
    [CommitSector] with a 31-byte commD, and likewise an owner-sent
    [SubmitPoSt] with a 191-byte proof, leaves the state as it was and
    sends nothing, but its exit code is 0, not the generic revert
    code 1 that its error carries. *)
Theorem CommitSector_short_commD_exit_code :
  CommitSector (host := sampleHost) (message "O" 1000 0) genesis 2
    (zeros 31) (zeros 32) (zeros 32) []
  = mkRun (Returns tt 0 (Some (NewRevertError "invalid sized commD")))
      genesis []
  ∧ SubmitPoSt (host := sampleHost) (message "O" 1000 0) genesis (zeros 191)
    = mkRun (Returns tt 0 (Some (NewRevertError "invalid sized proof")))
        genesis []
  ∧ CodeError (NewRevertError "invalid sized commD") = 1.
Proof. split_and!; reflexivity. Qed.

(** ** The remaining methods and the actor's invariants *)

Ltac unfold_reader :=
  unfold GetAsks, GetAsks_callback, GetOwner, GetLastUsedSectorID,
    GetSectorCommitments, GetKey, GetPledge, GetPower, GetPeerID,
    GetProvingPeriodStart, readField, charged, WithState,
    mbind, mret, Call_bind, Call_ret, getState, throw.

Lemma AddAsk_transition (ctx : VMContext) (s : State) (price : AttoFIL)
    (expiry : Z) :
  Transition ctx s (storage (AddAsk ctx s price expiry)).
Proof.
  unfold_method. destruct (ctx_Charge ctx 100%N); [constructor|].
  destruct (decide (msg_From ctx = Owner s)) as [Hfrom|Hfrom].
  - rewrite decide_False by (intros Hne; by apply Hne). simpl.
    destruct (IsUint64 expiry) eqn:Hfits; simpl; [|constructor].
    rewrite pruneAsks_filter. unfold Uint64.
    pose proof Hfits as Hrange.
    apply andb_prop in Hrange as [Hlo%Z.leb_le Hhi%Z.ltb_lt].
    rewrite Z.mod_small by lia.
    by apply (AskAdded ctx s price expiry).
  - rewrite decide_True by done. constructor.
Qed.

Lemma CommitSector_transition (ctx : VMContext) (s : State) (sectorID : N)
    (commD commR commRStar proof : Bytes) :
  Transition ctx s
    (storage (CommitSector ctx s sectorID commD commR commRStar proof)).
Proof.
  destruct (outcome (CommitSector ctx s sectorID commD commR commRStar proof))
    as [[] code [e|]|] eqn:Hrun.
  - revert Hrun. unfold_method. destruct (ctx_Charge ctx 100%N); [constructor|].
    repeat case_decide; try constructor.
    destruct (SectorCommitments s !! FormatUint sectorID); [constructor|].
    destruct (Power s =? 0); simpl;
      destruct (ctx_Send ctx StorageMarketAddress "updatePower" None [1])
        as [[chunks ret] [e'|]]; simpl; try constructor;
      case_decide; simpl; try constructor; done.
  - destruct (decide (code = 0)) as [->|Hcode].
    + destruct (CommitSector_success_inv _ _ _ _ _ _ _ Hrun)
        as (_ & Hsizes & Hfrom & Hfresh & ->).
      by apply SectorCommitted.
    + revert Hrun. unfold_method.
      destruct (ctx_Charge ctx 100%N); [constructor|].
      repeat case_decide; try constructor.
      destruct (SectorCommitments s !! FormatUint sectorID); [constructor|].
      destruct (Power s =? 0); simpl;
        destruct (ctx_Send ctx StorageMarketAddress "updatePower" None [1])
          as [[chunks ret] [e'|]]; simpl; try constructor;
        case_decide; simpl; try constructor; by intros [= <-].
  - revert Hrun. unfold_method. destruct (ctx_Charge ctx 100%N); [done|].
    repeat case_decide; try done.
    destruct (SectorCommitments s !! FormatUint sectorID); [done|].
    destruct (Power s =? 0); simpl;
      destruct (ctx_Send ctx StorageMarketAddress "updatePower" None [1])
        as [[chunks ret] [e'|]]; simpl; try done; by case_decide.
Qed.

Lemma UpdatePeerID_transition (ctx : VMContext) (s : State) (pid : peer_ID) :
  Transition ctx s (storage (UpdatePeerID ctx s pid)).
Proof.
  unfold_method. destruct (ctx_Charge ctx 100%N); [constructor|].
  destruct (decide (msg_From ctx = Owner s)) as [Hfrom|Hfrom].
  - rewrite decide_False by (intros Hne; by apply Hne). simpl.
    by apply PeerChanged.
  - rewrite decide_True by done. constructor.
Qed.

Lemma SubmitPoSt_transition (ctx : VMContext) (s : State) (proof : Bytes) :
  Transition ctx s (storage (SubmitPoSt ctx s proof)).
Proof.
  unfold_method. destruct (ctx_Charge ctx 100%N); [constructor|].
  case_decide; [constructor|].
  destruct (decide (msg_From ctx = Owner s)) as [Hfrom|Hfrom].
  - rewrite decide_False by (intros Hne; by apply Hne).
    destruct (VerifyPoST (postRequest s proof)) as [e|[[]]]; simpl;
      try constructor.
    destruct (ProvingPeriodStart s) as [start|] eqn:Hstart; [|constructor].
    destruct (Z.leb_spec (ctx_BlockHeight ctx) (start + ProvingPeriodBlocks));
      simpl; [|constructor].
    by apply (PoStAccepted ctx s start).
  - rewrite decide_True by done. constructor.
Qed.

Lemma reader_storage {A} (ctx : VMContext) (s : State) (zero : A)
    (field : State → A) :
  storage (readField ctx s zero field) = s
  ∧ outbox (readField ctx s zero field) = [].
Proof. unfold_reader. by destruct (ctx_Charge ctx 100%N). Qed.

Lemma GetAsks_storage (ctx : VMContext) (s : State) :
  storage (GetAsks ctx s) = s ∧ outbox (GetAsks ctx s) = [].
Proof.
  unfold_reader. destruct (ctx_Charge ctx 100%N); [done|].
  by destruct (collectAskIDs (Asks s) []).
Qed.

Lemma GetAsk_storage (ctx : VMContext) (s : State) (askid : Z) :
  storage (GetAsk ctx s askid) = s ∧ outbox (GetAsk ctx s askid) = [].
Proof.
  unfold_method. destruct (ctx_Charge ctx 100%N); [done|].
  by destruct (DumpObject (findAsk askid (Asks s))).
Qed.

(** Every message makes one of the five transitions. *)
Lemma invoke_transition (ctx : VMContext) (s : State) (m : Method) :
  Transition ctx s (invoke ctx s m).1.
Proof.
  destruct m; simpl;
    auto using AddAsk_transition, CommitSector_transition,
      UpdatePeerID_transition, SubmitPoSt_transition.
  - rewrite (proj1 (GetAsks_storage _ _)). constructor.
  - rewrite (proj1 (GetAsk_storage _ _ _)). constructor.
  - unfold GetOwner. rewrite (proj1 (reader_storage _ _ _ _)). constructor.
  - unfold GetLastUsedSectorID.
    rewrite (proj1 (reader_storage _ _ _ _)). constructor.
  - unfold GetKey. rewrite (proj1 (reader_storage _ _ _ _)). constructor.
  - unfold GetPeerID, charged. destruct (ctx_Charge ctx 100%N); constructor.
  - unfold GetPledge. rewrite (proj1 (reader_storage _ _ _ _)). constructor.
  - unfold GetPower. rewrite (proj1 (reader_storage _ _ _ _)). constructor.
  - unfold GetProvingPeriodStart, charged.
    destruct (ctx_Charge ctx 100%N); constructor.
  - unfold GetSectorCommitments.
    rewrite (proj1 (reader_storage _ _ _ _)). constructor.
Qed.

(** A property that holds of the first state and that no transition
    breaks holds after every sequence of messages. *)
Lemma runMessages_invariant (P : State → Prop) :
  (∀ ctx s s', P s → Transition ctx s s' → P s') →
  ∀ msgs s, P s → P (runMessages s msgs).
Proof.
  intros Hstep msgs. unfold runMessages.
  induction msgs as [|[ctx m] msgs IH]; intros s Hs; simpl; [done|].
  apply IH. eapply Hstep; [exact Hs|]. apply invoke_transition.
Qed.

(** No transition touches the fields set at construction. *)
Lemma fixed_fields (s : State) (msgs : list (VMContext * Method)) :
  Owner (runMessages s msgs) = Owner s
  ∧ PublicKey (runMessages s msgs) = PublicKey s
  ∧ PledgeSectors (runMessages s msgs) = PledgeSectors s
  ∧ Collateral (runMessages s msgs) = Collateral s.
Proof.
  apply (runMessages_invariant
           (λ s', Owner s' = Owner s ∧ PublicKey s' = PublicKey s
                  ∧ PledgeSectors s' = PledgeSectors s
                  ∧ Collateral s' = Collateral s)); [|done].
  intros ctx s1 s2 Hs1 [|price expiry Hfrom Hfits|sectorID commD commR commRStar Hfrom Hsizes Hfresh|peer Hfrom|start Hfrom Hset Hle]; try done.
  by destruct (Power s1 =? 0).
Qed.

(** X1: whatever messages arrive, from whomever and with whatever
    outcome, the owner, the public key, the pledge and the collateral
    of the stored state stay what they were. *)
Theorem fixed_fields_never_change (s : State)
    (msgs : list (VMContext * Method)) :
  Owner (runMessages s msgs) = Owner s
  ∧ PublicKey (runMessages s msgs) = PublicKey s
  ∧ PledgeSectors (runMessages s msgs) = PledgeSectors s
  ∧ Collateral (runMessages s msgs) = Collateral s.
Proof. apply fixed_fields. Qed.

(** The invariant that ties power, commitments and the proving period
    together. *)
Lemma proving_invariant (owner : Address) (key : Bytes) (pledge : Z)
    (pid : peer_ID) (collateral : AttoFIL) (msgs : list (VMContext * Method)) :
  let s := runMessages (NewState owner key pledge pid collateral) msgs in
  Power s = Z.of_nat (size (SectorCommitments s))
  ∧ (ProvingPeriodStart s = None ↔ SectorCommitments s = ∅)
  ∧ (∀ h, LastPoSt s = Some h →
       ∃ p, ProvingPeriodStart s = Some p ∧ h ≤ p).
Proof.
  apply (runMessages_invariant
           (λ s, Power s = Z.of_nat (size (SectorCommitments s))
                 ∧ (ProvingPeriodStart s = None ↔ SectorCommitments s = ∅)
                 ∧ (∀ h, LastPoSt s = Some h →
                      ∃ p, ProvingPeriodStart s = Some p ∧ h ≤ p))).
  - intros ctx s1 s2 (Hpower & Hstart & Hlast) [|price expiry Hfrom Hfits|sectorID commD commR commRStar Hfrom Hsizes Hfresh|peer Hfrom|start Hfrom Hset Hle];
      try done.
    + destruct (Z.eqb_spec (Power s1) 0) as [Hzero|Hpos]; simpl.
      * split_and!.
        -- rewrite map_size_insert_None by done. lia.
        -- split; [done|]. intros Hempty. by apply insert_non_empty in Hempty.
        -- intros h Hh. destruct (Hlast h Hh) as (p & Hp & _).
           assert (size (SectorCommitments s1) = 0%nat) as Hsize by lia.
           apply map_size_empty_iff, Hstart in Hsize. congruence.
      * split_and!.
        -- rewrite map_size_insert_None by done. lia.
        -- split.
           ++ intros Hnone. apply Hstart in Hnone.
              rewrite Hnone, map_size_empty in Hpower. lia.
           ++ intros Hempty. by apply insert_non_empty in Hempty.
        -- done.
    + simpl. split_and!; [done| |].
      * split; [done|]. intros Hempty. apply Hstart in Hempty. congruence.
      * intros h [= <-]. eauto.
  - simpl. split_and!; [by rewrite map_size_empty|done|done].
Qed.

(** X2: in every state reached from a new actor by any messages, power
    is the number of committed sectors, and the proving period is unset
    exactly as long as no sector is committed. *)
Theorem power_and_proving_period (owner : Address) (key : Bytes) (pledge : Z)
    (pid : peer_ID) (collateral : AttoFIL) (msgs : list (VMContext * Method)) :
  Power (runMessages (NewState owner key pledge pid collateral) msgs)
  = Z.of_nat
      (size (SectorCommitments
               (runMessages (NewState owner key pledge pid collateral) msgs)))
  ∧ (ProvingPeriodStart
       (runMessages (NewState owner key pledge pid collateral) msgs) = None
     ↔ SectorCommitments
         (runMessages (NewState owner key pledge pid collateral) msgs) = ∅).
Proof.
  destruct (proving_invariant owner key pledge pid collateral msgs)
    as (Hpower & Hstart & _).
  by split.
Qed.

(** X3: in every state reached from a new actor, the height of the last
    accepted PoSt is at most the start of the current proving period. *)
Theorem last_post_before_period_start (owner : Address) (key : Bytes)
    (pledge : Z) (pid : peer_ID) (collateral : AttoFIL)
    (msgs : list (VMContext * Method)) (h : BlockHeight) :
  LastPoSt (runMessages (NewState owner key pledge pid collateral) msgs)
  = Some h →
  ∃ p,
    ProvingPeriodStart
      (runMessages (NewState owner key pledge pid collateral) msgs) = Some p
    ∧ h ≤ p.
Proof.
  destruct (proving_invariant owner key pledge pid collateral msgs)
    as (_ & _ & Hlast).
  apply Hlast.
Qed.

(** X4: in every state reached from a new actor, every key of
    [SectorCommitments] is the decimal spelling of a sector id, every
    stored commitment is 32 bytes long, and once a sector is committed
    [LastUsedSectorID] names a committed sector. *)
Theorem commitments_well_formed (owner : Address) (key : Bytes) (pledge : Z)
    (pid : peer_ID) (collateral : AttoFIL) (msgs : list (VMContext * Method)) :
  map_Forall
    (λ k c, (∃ sectorID, k = FormatUint sectorID)
            ∧ (length (CommD c) = 32 ∧ length (CommR c) = 32
               ∧ length (CommRStar c) = 32)%nat)
    (SectorCommitments
       (runMessages (NewState owner key pledge pid collateral) msgs))
  ∧ (SectorCommitments
       (runMessages (NewState owner key pledge pid collateral) msgs) ≠ ∅ →
     is_Some
       (SectorCommitments
          (runMessages (NewState owner key pledge pid collateral) msgs)
        !! FormatUint
             (LastUsedSectorID
                (runMessages (NewState owner key pledge pid collateral) msgs)))).
Proof.
  apply (runMessages_invariant
           (λ s, map_Forall
                   (λ k c, (∃ sectorID, k = FormatUint sectorID)
                           ∧ (length (CommD c) = 32 ∧ length (CommR c) = 32
                              ∧ length (CommRStar c) = 32)%nat)
                   (SectorCommitments s)
                 ∧ (SectorCommitments s ≠ ∅ →
                    is_Some (SectorCommitments s
                             !! FormatUint (LastUsedSectorID s))))).
  - intros ctx s1 s2 [Hall Hlast] [|price expiry Hfrom Hfits|sectorID commD commR commRStar Hfrom Hsizes Hfresh|peer Hfrom|start Hfrom Hset Hle]; try done.
    simpl. split.
    + apply map_Forall_insert_2; [|done]. split; [by exists sectorID|done].
    + intros _. rewrite lookup_insert_eq. by eexists.
  - simpl. split; [apply map_Forall_empty|done].
Qed.

Lemma StronglySorted_filter {A} (R : relation A) (P : A → Prop)
    `{!∀ x, Decision (P x)} (l : list A) :
  StronglySorted R l → StronglySorted R (filter P l).
Proof.
  induction 1 as [|x l _ IH Hx]; [constructor|].
  rewrite filter_cons. destruct (decide (P x)); [|done].
  constructor; [done|].
  apply Forall_forall. intros y [_ Hy]%list_elem_of_filter.
  by apply (proj1 (Forall_forall _ _) Hx).
Qed.

Lemma numbered_ids_unique (l : list Ask) (a b : Ask) :
  StronglySorted (λ a b, ID a < ID b) l →
  a ∈ l → b ∈ l → ID a = ID b → a = b.
Proof.
  induction 1 as [|x l _ IH Hx]; [by intros ?%elem_of_nil|].
  rewrite Forall_forall in Hx.
  intros [->|Ha]%elem_of_cons [->|Hb]%elem_of_cons Hid; [done| | |by apply IH].
  - specialize (Hx _ Hb). lia.
  - specialize (Hx _ Ha). lia.
Qed.

(** The ask book's numbering holds in every state reached from a new
    actor. *)
Lemma asks_invariant (owner : Address) (key : Bytes) (pledge : Z)
    (pid : peer_ID) (collateral : AttoFIL) (msgs : list (VMContext * Method)) :
  0 ≤ NextAskID (runMessages (NewState owner key pledge pid collateral) msgs)
  ∧ asksNumbered (runMessages (NewState owner key pledge pid collateral) msgs).
Proof.
  apply (runMessages_invariant (λ s, 0 ≤ NextAskID s ∧ asksNumbered s)).
  - unfold asksNumbered.
    intros ctx s1 s2 (Hnext & Hsorted & Hbelow)
      [|price expiry Hfrom Hfits|sectorID commD commR commRStar Hfrom Hsizes
          Hfresh|peer Hfrom|start Hfrom Hset Hle]; try done.
    + simpl. rewrite Forall_forall in Hbelow. split_and!; [lia| |].
      * apply StronglySorted_app. split_and!.
        -- intros x1 x2 [_ Hx1]%list_elem_of_filter ->%list_elem_of_singleton.
           simpl. specialize (Hbelow _ Hx1). lia.
        -- by apply StronglySorted_filter.
        -- repeat constructor.
      * apply Forall_app. split.
        -- apply Forall_forall. intros x [_ Hx]%list_elem_of_filter.
           specialize (Hbelow _ Hx). lia.
        -- apply Forall_singleton. simpl. lia.
    + simpl. by destruct (Power s1 =? 0).
  - unfold asksNumbered. simpl. split_and!; [done|constructor|constructor].
Qed.

(** X5: in every state reached from a new actor by any messages, the
    ids of the stored asks increase strictly along the list and lie
    between 0 and [NextAskID]: no two stored asks share an id. *)
Theorem ask_ids_increase (owner : Address) (key : Bytes) (pledge : Z)
    (pid : peer_ID) (collateral : AttoFIL) (msgs : list (VMContext * Method)) :
  asksNumbered (runMessages (NewState owner key pledge pid collateral) msgs)
  ∧ (∀ a b,
       a ∈ Asks (runMessages (NewState owner key pledge pid collateral) msgs) →
       b ∈ Asks (runMessages (NewState owner key pledge pid collateral) msgs) →
       ID a = ID b → a = b).
Proof.
  destruct (asks_invariant owner key pledge pid collateral msgs)
    as (_ & Hsorted & Hbelow).
  split; [by split|].
  intros a b. by apply numbered_ids_unique.
Qed.

(** X6: in a state reached from a new actor, the id a successful
    [AddAsk] returns finds, through [GetAsk], the ask just added: its
    price, the expiry [height + expiry] and that id. *)
Theorem AddAsk_then_GetAsk (owner : Address) (key : Bytes) (pledge : Z)
    (pid : peer_ID) (collateral : AttoFIL) (msgs : list (VMContext * Method))
    (s : State) (ctx ctx' : VMContext) (price : AttoFIL) (expiry id : Z)
    (bytes : Bytes) :
  s = runMessages (NewState owner key pledge pid collateral) msgs →
  outcome (AddAsk ctx s price expiry) = Returns (Some id) 0 None →
  ctx_Charge ctx' 100%N = None →
  DumpObject (Some (mkAsk price (ctx_BlockHeight ctx + expiry) id))
  = inr bytes →
  outcome (GetAsk ctx' (storage (AddAsk ctx s price expiry)) id)
  = Returns (Some bytes) 0 None.
Proof.
  intros -> Hrun Hgas Hdump.
  destruct (asks_invariant owner key pledge pid collateral msgs)
    as (_ & _ & Hbelow).
  destruct (AddAsk_success_inv _ _ _ _ _ Hrun) as (Hid & _ & ->).
  unfold_method. rewrite Hgas. simpl.
  rewrite (findAsk_app_hit id _ [] (mkAsk price (ctx_BlockHeight ctx + expiry) id));
    [by rewrite Hdump| |done].
  apply Forall_forall. intros b [_ Hb]%list_elem_of_filter.
  rewrite Forall_forall in Hbelow. specialize (Hbelow _ Hb). lia.
Qed.

(** X7: in a state reached from a new actor, an ask whose expiry is not
    above the height of a successful [AddAsk] is gone for good:
    [GetAsk] with its id afterwards yields the encoding of nil. *)
Theorem pruned_ask_not_found (owner : Address) (key : Bytes) (pledge : Z)
    (pid : peer_ID) (collateral : AttoFIL) (msgs : list (VMContext * Method))
    (s : State) (ctx ctx' : VMContext) (price : AttoFIL) (expiry id : Z)
    (a : Ask) (bytes : Bytes) :
  s = runMessages (NewState owner key pledge pid collateral) msgs →
  outcome (AddAsk ctx s price expiry) = Returns (Some id) 0 None →
  a ∈ Asks s →
  Expiry a ≤ ctx_BlockHeight ctx →
  ctx_Charge ctx' 100%N = None →
  DumpObject None = inr bytes →
  outcome (GetAsk ctx' (storage (AddAsk ctx s price expiry)) (ID a))
  = Returns (Some bytes) 0 None.
Proof.
  intros -> Hrun Ha Hexpired Hgas Hdump.
  destruct (asks_invariant owner key pledge pid collateral msgs)
    as (_ & Hsorted & Hbelow).
  destruct (AddAsk_success_inv _ _ _ _ _ Hrun) as (-> & _ & ->).
  unfold_method. rewrite Hgas. simpl.
  rewrite findAsk_miss; [by rewrite Hdump|].
  rewrite Forall_forall in Hbelow.
  apply Forall_app. split.
  - apply Forall_forall. intros b [Hlive Hb]%list_elem_of_filter Hsame.
    assert (b = a) as -> by (by apply (numbered_ids_unique _ _ _ Hsorted)).
    lia.
  - apply Forall_singleton. simpl. specialize (Hbelow _ Ha). lia.
Qed.

Lemma collectAskIDs_all (asks : list Ask) (askids : list Z) :
  Forall (λ a, IsUint64 (ID a) = true) asks →
  collectAskIDs asks askids = inr (askids ++ (ID <$> asks)).
Proof.
  intros Hfit. revert askids.
  induction Hfit as [|a asks Ha _ IH]; intros askids; simpl.
  - by rewrite app_nil_r.
  - rewrite Ha. simpl. rewrite IH, <- app_assoc. unfold Uint64.
    apply andb_prop in Ha as [Hlo%Z.leb_le Hhi%Z.ltb_lt].
    by rewrite Z.mod_small by lia.
Qed.

Lemma collectAskIDs_fault (asks : list Ask) (askids : list Z) :
  Exists (λ a, IsUint64 (ID a) = false) asks →
  collectAskIDs asks askids
  = inl (NewFaultError "miner ask has invalid ID (bad invariant)").
Proof.
  revert askids. induction asks as [|a asks IH]; intros askids Hbad; simpl.
  - by apply Exists_nil in Hbad.
  - destruct (IsUint64 (ID a)) eqn:Ha; simpl; [|done].
    apply IH. apply Exists_cons in Hbad as [Hhead|Htail]; [congruence|done].
Qed.

(** X8: with the gas charge accepted and every stored id a [uint64],
    [GetAsks] returns the ids of all stored asks in list order, expired
    or not, and leaves the stored state as it was. *)
Theorem GetAsks_lists_ids (ctx : VMContext) (stored : State) :
  ctx_Charge ctx 100%N = None →
  Forall (λ a, IsUint64 (ID a) = true) (Asks stored) →
  GetAsks ctx stored = mkRun (Returns (ID <$> Asks stored) 0 None) stored [].
Proof.
  intros Hgas Hfit. unfold_reader. rewrite Hgas.
  by rewrite (collectAskIDs_all _ _ Hfit).
Qed.

(** X9: with the gas charge accepted, one stored ask whose id is not a
    [uint64] makes [GetAsks] fail with the fault error: no id at all is
    returned, and the stored state is left as it was. *)
Theorem GetAsks_faults_on_bad_id (ctx : VMContext) (stored : State) (a : Ask) :
  ctx_Charge ctx 100%N = None →
  a ∈ Asks stored →
  IsUint64 (ID a) = false →
  GetAsks ctx stored
  = mkRun (Returns []
             (CodeError
                (NewFaultError "miner ask has invalid ID (bad invariant)"))
             (Some (NewFaultError "miner ask has invalid ID (bad invariant)")))
      stored [].
Proof.
  intros Hgas Ha Hbad. unfold_reader. rewrite Hgas.
  rewrite collectAskIDs_fault; [done|].
  apply Exists_exists. by exists a.
Qed.

(** X10: in a state reached from a new actor, as long as [NextAskID]
    has not passed 2^64, [GetAsks] does not fault: it returns the ids
    of the stored asks. *)
Theorem GetAsks_after_messages (owner : Address) (key : Bytes) (pledge : Z)
    (pid : peer_ID) (collateral : AttoFIL) (msgs : list (VMContext * Method))
    (s : State) (ctx : VMContext) :
  s = runMessages (NewState owner key pledge pid collateral) msgs →
  NextAskID s ≤ 2 ^ 64 →
  ctx_Charge ctx 100%N = None →
  outcome (GetAsks ctx s) = Returns (ID <$> Asks s) 0 None.
Proof.
  intros -> Hnext Hgas.
  destruct (asks_invariant owner key pledge pid collateral msgs)
    as (_ & _ & Hbelow).
  unfold_reader. rewrite Hgas. rewrite collectAskIDs_all; [done|].
  eapply Forall_impl; [exact Hbelow|].
  intros a Ha. unfold IsUint64. simpl in Ha.
  apply andb_true_intro. split; [apply Z.leb_le|apply Z.ltb_lt]; lia.
Qed.


(** X12: with the gas charge accepted, an owner's [AddAsk] whose expiry
    is negative or not below 2^64 reverts with the generic code 1, and
    although the callback had taken the next id and pruned the asks by
    then, the stored state, [NextAskID] included, is left as it was. *)
Theorem AddAsk_invalid_expiry (ctx : VMContext) (stored : State)
    (price : AttoFIL) (expiry : Z) :
  ctx_Charge ctx 100%N = None →
  msg_From ctx = Owner stored →
  expiry < 0 ∨ 2 ^ 64 ≤ expiry →
  AddAsk ctx stored price expiry
  = mkRun (Returns None 1 (Some (NewRevertError "expiry was invalid")))
      stored [].
Proof.
  intros Hgas Hfrom Hrange. unfold_method. rewrite Hgas.
  rewrite decide_False by (intros Hne; by apply Hne). simpl.
  assert (IsUint64 expiry = false) as ->; [|done].
  unfold IsUint64. apply andb_false_iff.
  destruct Hrange; [left; apply Z.leb_gt|right; apply Z.ltb_ge]; lia.
Qed.

(** X13: with the gas charge accepted, an owner's [SubmitPoSt] with a
    192-byte proof that the verifier declares invalid returns exit code
    39 with [ErrInvalidPoSt], and one on which the verifier fails
    returns the wrapped error; either way, whatever the height and the
    proving period, the stored state is left as it was. *)
Theorem SubmitPoSt_verifier_says_no (ctx : VMContext) (stored : State)
    (proof : Bytes) :
  ctx_Charge ctx 100%N = None →
  msg_From ctx = Owner stored →
  length proof = 192%nat →
  (∀ res,
     VerifyPoST (postRequest stored proof) = inr res → IsValid res = false →
     SubmitPoSt ctx stored proof
     = mkRun (Returns tt 39 (Some (Errors ErrInvalidPoSt))) stored [])
  ∧ (∀ e,
       VerifyPoST (postRequest stored proof) = inl e →
       SubmitPoSt ctx stored proof
       = mkRun (Returns tt
                  (CodeError (RevertErrorWrap e "failed to verify PoSt"))
                  (Some (RevertErrorWrap e "failed to verify PoSt")))
           stored []).
Proof.
  intros Hgas Hfrom Hlen.
  split; [intros res Hverify Hvalid|intros e Hverify];
    unfold_method; rewrite Hgas;
    rewrite decide_False by (unfold PoStProofLength; congruence);
    rewrite decide_False by (intros Hne; by apply Hne);
    rewrite Hverify; [by rewrite Hvalid|done].
Qed.

(** What a successful [SubmitPoSt] has written. *)
Lemma SubmitPoSt_success_inv (ctx : VMContext) (stored : State) (proof : Bytes) :
  outcome (SubmitPoSt ctx stored proof) = Returns tt 0 None →
  ∃ start,
    ProvingPeriodStart stored = Some start
    ∧ ctx_BlockHeight ctx ≤ start + ProvingPeriodBlocks
    ∧ storage (SubmitPoSt ctx stored proof)
      = set_LastPoSt (Some (ctx_BlockHeight ctx))
          (set_ProvingPeriodStart (Some (start + ProvingPeriodBlocks)) stored).
Proof.
  unfold_method. destruct (ctx_Charge ctx 100%N); [done|].
  case_decide; [done|]. case_decide; [done|].
  destruct (VerifyPoST (postRequest stored proof)) as [e|[[]]]; simpl;
    try done.
  destruct (ProvingPeriodStart stored) as [start|]; [|done].
  destruct (Z.leb_spec (ctx_BlockHeight ctx) (start + ProvingPeriodBlocks));
    simpl; [|done].
  intros _. by exists start.
Qed.

Lemma runSubmitPoSts_periods (calls : list (VMContext * Bytes))
    (s s' : State) (start : BlockHeight) :
  runSubmitPoSts s calls = Some s' →
  ProvingPeriodStart s = Some start →
  ProvingPeriodStart s'
  = Some (start + Z.of_nat (length calls) * ProvingPeriodBlocks)
  ∧ (∀ k c, calls !! k = Some c →
       ctx_BlockHeight c.1 ≤ start + (Z.of_nat k + 1) * ProvingPeriodBlocks)
  ∧ SectorCommitments s' = SectorCommitments s
  ∧ Power s' = Power s.
Proof.
  revert s start. induction calls as [|c calls IH]; intros s start; simpl.
  - intros [= <-] Hstart. split_and!; try done. rewrite Hstart. f_equal. lia.
  - destruct (outcome (SubmitPoSt c.1 s c.2)) as [[] code [e|]|] eqn:Hrun;
      try done; destruct code; try done.
    intros Hrest Hstart.
    destruct (SubmitPoSt_success_inv _ _ _ Hrun) as (start' & Hstart' & Hle & Hs).
    assert (start' = start) as -> by congruence.
    destruct (IH _ (start + ProvingPeriodBlocks) Hrest) as (Hend & Hdue & Hsc & Hpw).
    { by rewrite Hs. }
    rewrite Hs in Hsc, Hpw. simpl in Hsc, Hpw. split_and!; try done.
    + rewrite Hend. f_equal. lia.
    + intros [|k] c' Hc'; simpl in Hc'.
      * injection Hc' as <-. lia.
      * specialize (Hdue _ _ Hc'). lia.
Qed.

(** X14: a run of [n] successful [SubmitPoSt] messages moves the start
    of the proving period forward by exactly [n] periods, whatever the
    heights at which they arrive; the [k]-th of them arrives no later
    than the [k]-th deadline, and commitments and power stay as they
    were. *)
Theorem successive_posts_advance_by_periods (calls : list (VMContext * Bytes))
    (s s' : State) (start : BlockHeight) :
  runSubmitPoSts s calls = Some s' →
  ProvingPeriodStart s = Some start →
  ProvingPeriodStart s'
  = Some (start + Z.of_nat (length calls) * ProvingPeriodBlocks)
  ∧ (∀ k c, calls !! k = Some c →
       ctx_BlockHeight c.1 ≤ start + (Z.of_nat k + 1) * ProvingPeriodBlocks)
  ∧ SectorCommitments s' = SectorCommitments s
  ∧ Power s' = Power s.
Proof. apply runSubmitPoSts_periods. Qed.

(** The sends of [CommitSector]: none, or the one to the storage
    market. *)
Lemma CommitSector_outbox (ctx : VMContext) (s : State) (sectorID : N)
    (commD commR commRStar proof : Bytes) :
  outbox (CommitSector ctx s sectorID commD commR commRStar proof) = []
  ∨ (ctx_Charge ctx 100%N = None
     ∧ msg_From ctx = Owner s
     ∧ SectorCommitments s !! FormatUint sectorID = None
     ∧ outbox (CommitSector ctx s sectorID commD commR commRStar proof)
       = [mkSend StorageMarketAddress "updatePower" None [1]]).
Proof.
  unfold_method. destruct (ctx_Charge ctx 100%N); [by left|].
  repeat case_decide; try (by left).
  destruct (SectorCommitments s !! FormatUint sectorID) eqn:Hkey; [by left|].
  right. split_and!; try done.
  destruct (Power s =? 0); simpl;
    destruct (ctx_Send ctx StorageMarketAddress "updatePower" None [1])
      as [[chunks ret] [e|]]; simpl; try done; by case_decide.
Qed.

(** X15: the only message the actor ever sends is [updatePower] with
    the argument 1 and no value, to the storage market, at most once per
    message and only from a [commitSector] of the owner for a sector not
    yet committed; no other method sends anything. *)
Theorem only_commitSector_sends (ctx : VMContext) (s : State) (m : Method) :
  (invoke ctx s m).2 = []
  ∨ (∃ sectorID commD commR commRStar proof,
       m = commitSector sectorID commD commR commRStar proof
       ∧ msg_From ctx = Owner s
       ∧ SectorCommitments s !! FormatUint sectorID = None
       ∧ (invoke ctx s m).2
         = [mkSend StorageMarketAddress "updatePower" None [1]]).
Proof.
  destruct m as [price expiry| |askid| | |sectorID commD commR commRStar proof
                 | | |peer| | |proof| |]; simpl.
  - left. unfold_method. destruct (ctx_Charge ctx 100%N); [done|].
    case_decide; [done|]. simpl. by destruct (IsUint64 expiry).
  - left. apply GetAsks_storage.
  - left. apply GetAsk_storage.
  - left. apply reader_storage.
  - left. apply reader_storage.
  - destruct (CommitSector_outbox ctx s sectorID commD commR commRStar proof)
      as [Hnone|(_ & Hfrom & Hfresh & Hsend)]; [by left|].
    right. by exists sectorID, commD, commR, commRStar, proof.
  - left. apply reader_storage.
  - left. unfold GetPeerID, charged. by destruct (ctx_Charge ctx 100%N).
  - left. unfold_method. destruct (ctx_Charge ctx 100%N); [done|].
    by case_decide.
  - left. apply reader_storage.
  - left. apply reader_storage.
  - left. unfold_method. destruct (ctx_Charge ctx 100%N); [done|].
    case_decide; [done|]. case_decide; [done|].
    destruct (VerifyPoST (postRequest s proof)) as [e|[[]]]; simpl; try done.
    destruct (ProvingPeriodStart s) as [start|]; [|done].
    by destruct (Z.leb_spec (ctx_BlockHeight ctx) (start + ProvingPeriodBlocks)).
  - left. unfold GetProvingPeriodStart, charged.
    by destruct (ctx_Charge ctx 100%N).
  - left. apply reader_storage.
Qed.

(** X16: a successful [CommitSector] has sent exactly the one
    [updatePower] message, which came back with exit code 0 and no
    error; it leaves the asks, [NextAskID], the peer id and [LastPoSt]
    as they were, and when power was not 0 the start of the proving
    period as well. *)
Theorem CommitSector_success_frame (ctx : VMContext) (stored : State)
    (sectorID : N) (commD commR commRStar proof : Bytes) :
  outcome (CommitSector ctx stored sectorID commD commR commRStar proof)
  = Returns tt 0 None →
  outbox (CommitSector ctx stored sectorID commD commR commRStar proof)
  = [mkSend StorageMarketAddress "updatePower" None [1]]
  ∧ (∃ chunks,
       ctx_Send ctx StorageMarketAddress "updatePower" None [1]
       = (chunks, 0, None))
  ∧ Asks (storage (CommitSector ctx stored sectorID commD commR commRStar proof))
    = Asks stored
  ∧ NextAskID
      (storage (CommitSector ctx stored sectorID commD commR commRStar proof))
    = NextAskID stored
  ∧ PeerID
      (storage (CommitSector ctx stored sectorID commD commR commRStar proof))
    = PeerID stored
  ∧ LastPoSt
      (storage (CommitSector ctx stored sectorID commD commR commRStar proof))
    = LastPoSt stored
  ∧ (Power stored ≠ 0 →
     ProvingPeriodStart
       (storage (CommitSector ctx stored sectorID commD commR commRStar proof))
     = ProvingPeriodStart stored).
Proof.
  intros Hrun.
  destruct (CommitSector_success_inv _ _ _ _ _ _ _ Hrun)
    as (Hgas & (HD & HR & HS) & Hfrom & Hfresh & Hs).
  split_and!.
  - destruct (CommitSector_outbox ctx stored sectorID commD commR commRStar
                proof) as [Hnone|(_ & _ & _ & Hsend)]; [|done].
    revert Hrun Hnone. unfold_method. rewrite Hgas.
    rewrite 3!decide_False by (unfold CommitmentBytesLen; congruence).
    rewrite decide_False by (intros Hne; by apply Hne). rewrite Hfresh.
    destruct (Power stored =? 0); simpl;
      destruct (ctx_Send ctx StorageMarketAddress "updatePower" None [1])
        as [[chunks ret] [e|]]; simpl; try done; by case_decide.
  - revert Hrun. unfold_method. rewrite Hgas.
    rewrite 3!decide_False by (unfold CommitmentBytesLen; congruence).
    rewrite decide_False by (intros Hne; by apply Hne). rewrite Hfresh.
    destruct (Power stored =? 0); simpl;
      destruct (ctx_Send ctx StorageMarketAddress "updatePower" None [1])
        as [[chunks ret] [e|]]; simpl; try done;
      (case_decide as Hret; simpl; [done|]);
      intros _; exists chunks; repeat f_equal;
      by destruct (decide (ret = 0)).
  - rewrite Hs. simpl. by destruct (Power stored =? 0).
  - rewrite Hs. simpl. by destruct (Power stored =? 0).
  - rewrite Hs. simpl. by destruct (Power stored =? 0).
  - rewrite Hs. simpl. by destruct (Power stored =? 0).
  - intros Hpower. rewrite Hs. simpl.
    by destruct (Z.eqb_spec (Power stored) 0).
Qed.

(** X17: when the gas meter refuses the charge of 100, every one of the
    fourteen methods returns the VM's insufficient-gas code with the
    wrapped error of the meter and the zero value of its result, leaves
    the stored state as it was and sends nothing. *)
Theorem gas_refused (ctx : VMContext) (s : State) (err : error) :
  ctx_Charge ctx 100%N = Some err →
  (∀ m, invoke ctx s m = (s, []))
  ∧ (∀ price expiry,
       outcome (AddAsk ctx s price expiry)
       = Returns None ErrInsufficientGas
           (Some (RevertErrorWrap err "Insufficient gas")))
  ∧ outcome (GetAsks ctx s)
    = Returns [] ErrInsufficientGas
        (Some (RevertErrorWrap err "Insufficient gas"))
  ∧ (∀ askid,
       outcome (GetAsk ctx s askid)
       = Returns None ErrInsufficientGas
           (Some (RevertErrorWrap err "Insufficient gas")))
  ∧ outcome (GetOwner ctx s)
    = Returns "" ErrInsufficientGas
        (Some (RevertErrorWrap err "Insufficient gas"))
  ∧ outcome (GetLastUsedSectorID ctx s)
    = Returns 0%N ErrInsufficientGas
        (Some (RevertErrorWrap err "Insufficient gas"))
  ∧ (∀ sectorID commD commR commRStar proof,
       outcome (CommitSector ctx s sectorID commD commR commRStar proof)
       = Returns tt ErrInsufficientGas
           (Some (RevertErrorWrap err "Insufficient gas")))
  ∧ outcome (GetKey ctx s)
    = Returns [] ErrInsufficientGas
        (Some (RevertErrorWrap err "Insufficient gas"))
  ∧ outcome (GetPeerID ctx s)
    = Returns "" ErrInsufficientGas
        (Some (RevertErrorWrap err "Insufficient gas"))
  ∧ (∀ pid,
       outcome (UpdatePeerID ctx s pid)
       = Returns tt ErrInsufficientGas
           (Some (RevertErrorWrap err "Insufficient gas")))
  ∧ outcome (GetPledge ctx s)
    = Returns None ErrInsufficientGas
        (Some (RevertErrorWrap err "Insufficient gas"))
  ∧ outcome (GetPower ctx s)
    = Returns None ErrInsufficientGas
        (Some (RevertErrorWrap err "Insufficient gas"))
  ∧ (∀ proof,
       outcome (SubmitPoSt ctx s proof)
       = Returns tt ErrInsufficientGas
           (Some (RevertErrorWrap err "Insufficient gas")))
  ∧ outcome (GetProvingPeriodStart ctx s)
    = Returns None ErrInsufficientGas
        (Some (RevertErrorWrap err "Insufficient gas"))
  ∧ outcome (GetSectorCommitments ctx s)
    = Returns ∅ ErrInsufficientGas
        (Some (RevertErrorWrap err "Insufficient gas")).
Proof.
  intros Hgas. split_and!; intros;
    try (destruct m; simpl); unfold_method; unfold_reader;
    by rewrite Hgas.
Qed.

(** X18: [InitializeState] turns a state whose public key is longer
    than 100 bytes down with [ErrPublicKeyTooBig] before anything
    reaches the storage; a key of 100 bytes or fewer passes, and once
    the state is encoded and put, the result is that of committing the
    new chunk over the undefined one. *)
Theorem InitializeState_key_bound (dump : State → error + Bytes)
    (store : ExecStorage) (minerState : State) :
  ((100 < length (PublicKey minerState))%nat →
     InitializeState dump store (Some minerState)
     = (Some (Errors ErrPublicKeyTooBig), []))
  ∧ (∀ stateBytes id,
       (length (PublicKey minerState) ≤ 100)%nat →
       dump minerState = inr stateBytes →
       storage_Put store stateBytes = inr id →
       InitializeState dump store (Some minerState)
       = (storage_Commit store id Undef,
          [OpPut stateBytes; OpCommit id Undef])).
Proof.
  unfold InitializeState, MaximumPublicKeySize. split.
  - intros Hlong. by rewrite decide_True.
  - intros stateBytes id Hshort Hdump Hput.
    rewrite decide_False by lia. by rewrite Hdump, Hput.
Qed.


(** X20: whatever the method, the arguments and the outcome, one
    message leaves the stored state as it was or makes exactly one of
    four writes, each only on a message of the owner: a new ask after
    pruning with [NextAskID] one higher, a fresh sector commitment with
    power one higher, a new peer id, or a PoSt in time that moves the
    proving period on by one period. *)
Theorem message_effects (ctx : VMContext) (s : State) (m : Method) :
  Transition ctx s (invoke ctx s m).1
  ∧ (msg_From ctx ≠ Owner s → (invoke ctx s m).1 = s).
Proof.
  split; [apply invoke_transition|].
  intros Hstranger.
  destruct (invoke_transition ctx s m)
    as [|price expiry Hfrom Hfits|sectorID commD commR commRStar Hfrom Hsizes
          Hfresh|peer Hfrom|start Hfrom Hset Hle]; done.
Qed.

(** X21: nothing is ever taken back: over any sequence of messages from
    any state, a sector once committed keeps its commitments, and
    neither [NextAskID] nor [Power] ever goes down. *)
Theorem commitments_are_kept (s : State) (msgs : list (VMContext * Method)) :
  SectorCommitments s ⊆ SectorCommitments (runMessages s msgs)
  ∧ NextAskID s ≤ NextAskID (runMessages s msgs)
  ∧ Power s ≤ Power (runMessages s msgs).
Proof.
  apply (runMessages_invariant
           (λ s', SectorCommitments s ⊆ SectorCommitments s'
                  ∧ NextAskID s ≤ NextAskID s' ∧ Power s ≤ Power s'));
    [|done].
  intros ctx s1 s2 (Hkept & Hnext & Hpower)
    [|price expiry Hfrom Hfits|sectorID commD commR commRStar Hfrom Hsizes
        Hfresh|peer Hfrom|start Hfrom Hset Hle]; simpl; try done.
  - split_and!; [done|lia|done].
  - split_and!.
    + etrans; [exact Hkept|]. destruct (Power s1 =? 0); simpl;
        by apply insert_subseteq.
    + by destruct (Power s1 =? 0).
    + lia.
Qed.

End Properties.

(** ** The theorems at the specification's scenarios *)

(** Scenario S3 and S5: a PoSt at height 5000 for the period started at
    1000 is accepted, one at height 21001 is late. *)
Lemma SubmitPoSt_proving_period_witness :
  ProvingPeriodStart afterCommit = Some 1000
  ∧ (outcome (SubmitPoSt (host := sampleHost) (message "O" 5000 0) afterCommit
                (zeros 192)) = Returns tt 0 None
     ∧ ProvingPeriodStart
         (storage (SubmitPoSt (host := sampleHost) (message "O" 5000 0)
                     afterCommit (zeros 192))) = Some (1000 + 20000)
     ∧ LastPoSt
         (storage (SubmitPoSt (host := sampleHost) (message "O" 5000 0)
                     afterCommit (zeros 192))) = Some 5000)
  ∧ storage (SubmitPoSt (host := sampleHost) (message "O" 21001 0) afterCommit
               (zeros 192)) = afterCommit.
Proof.
  split; [evaluated|]. split.
  - destruct (SubmitPoSt_proving_period (host := sampleHost) (message "O" 5000 0)
                afterCommit (zeros 192) 1000 (mkResponse true))
      as [Hontime _]; [evaluated..|].
    assert (ctx_BlockHeight (message "O" 5000 0) ≤ 1000 + ProvingPeriodBlocks)
      as Hle by (unfold ProvingPeriodBlocks, NewBlockHeight; simpl; lia).
    destruct (Hontime Hle) as (Hok & _ & Hstart & Hlast).
    split_and!; assumption.
  - destruct (SubmitPoSt_proving_period (host := sampleHost) (message "O" 21001 0)
                afterCommit (zeros 192) 1000 (mkResponse true))
      as [_ Hlate]; [evaluated..|].
    assert (1000 + ProvingPeriodBlocks < ctx_BlockHeight (message "O" 21001 0))
      as Hgt by (unfold ProvingPeriodBlocks, NewBlockHeight; simpl; lia).
    destruct (Hlate Hgt) as (_ & Hsame & _).
    exact Hsame.
Defined.

(** Scenario S3: the first commitment, of sector 1 at height 1000. *)
Lemma CommitSector_records_sector_witness :
  SectorCommitments genesis !! FormatUint 1 = None
  ∧ Power afterCommit = 0 + 1
  ∧ SectorCommitments afterCommit !! FormatUint 1
    = Some (mkCommitments (zeros 32) (zeros 32) (zeros 32))
  ∧ LastUsedSectorID afterCommit = 1%N
  ∧ ProvingPeriodStart afterCommit = Some 1000.
Proof.
  split; [evaluated|].
  destruct (CommitSector_records_sector (host := sampleHost) (message "O" 1000 0)
              genesis 1 (zeros 32) (zeros 32) (zeros 32) [])
    as (Hpower & Hkey & _ & Hlast & Hstart); [evaluated..|].
  split_and!; [exact Hpower | exact Hkey | exact Hlast | exact (Hstart eq_refl)].
Defined.

(** Scenario S2: a stranger's messages are turned away. *)
Lemma unauthorized_caller_rejected_witness :
  msg_From (message "X" 10 0) ≠ Owner genesis
  ∧ AddAsk (host := sampleHost) (message "X" 10 0) genesis 5 100
    = mkRun (Returns None 37 (Some (Errors ErrCallerUnauthorized))) genesis []
  ∧ outcome (CommitSector (host := sampleHost) (message "X" 10 0) genesis 1
               (zeros 32) (zeros 32) (zeros 32) [])
    = Returns tt 37 (Some (Errors ErrCallerUnauthorized))
  ∧ outcome (UpdatePeerID (host := sampleHost) (message "X" 10 0) genesis
               "other")
    = Returns tt 37 (Some (Errors ErrCallerUnauthorized))
  ∧ outcome (SubmitPoSt (host := sampleHost) (message "X" 10 0) genesis
               (zeros 192))
    = Returns tt 37 (Some (Errors ErrCallerUnauthorized)).
Proof.
  assert (msg_From (message "X" 10 0) ≠ Owner genesis) as Hstranger
    by discriminate.
  split; [exact Hstranger|].
  destruct (unauthorized_caller_rejected (host := sampleHost)
              (message "X" 10 0) genesis Hstranger)
    as (Hask & Hcommit & Hpeer & Hpost).
  split_and!.
  - destruct (Hask 5 100) as (Hsame & Hquiet & Hcode).
    specialize (Hcode eq_refl).
    destruct (AddAsk (host := sampleHost) (message "X" 10 0) genesis 5 100);
      simpl in *. by subst.
  - by apply Hcommit.
  - by apply Hpeer.
  - by apply Hpost.
Defined.

(** The negation of C3 as stated: a stranger's [CommitSector] with a
    31-byte commD does not return exit code 37. *)
Lemma unauthorized_size_check_counterexample :
  msg_From (message "X" 1000 0) ≠ Owner genesis
  ∧ ctx_Charge (message "X" 1000 0) 100%N = None
  ∧ ¬ ∃ err,
        outcome (CommitSector (host := sampleHost) (message "X" 1000 0) genesis 2
                   (zeros 31) (zeros 32) (zeros 32) [])
        = Returns tt 37 err.
Proof.
  split_and!; [discriminate | reflexivity |].
  intros [err Hrun]. vm_compute in Hrun. discriminate Hrun.
Qed.

(** Scenario S4: sector 1 committed a second time. *)
Lemma CommitSector_duplicate_rejected_witness :
  SectorCommitments afterCommit !! FormatUint 1
  = Some (mkCommitments (zeros 32) (zeros 32) (zeros 32))
  ∧ CommitSector (host := sampleHost) (message "O" 1001 0) afterCommit 1
      (zeros 32) (zeros 32) (zeros 32) []
    = mkRun (Returns tt 35 (Some (Errors ErrSectorCommitted))) afterCommit [].
Proof.
  split; [evaluated|].
  apply (CommitSector_duplicate_rejected (host := sampleHost) (message "O" 1001 0)
           afterCommit 1 (zeros 32) (zeros 32) (zeros 32) []
           (mkCommitments (zeros 32) (zeros 32) (zeros 32))); evaluated.
Defined.

(** Scenario S3 again: one commitment, power 1. *)
Lemma power_counts_commitments_witness :
  runCommitSectors (host := sampleHost) genesis commitCalls = Some afterCommit
  ∧ Power afterCommit = Z.of_nat (size (SectorCommitments afterCommit)).
Proof.
  assert (runCommitSectors (host := sampleHost) genesis commitCalls
          = Some afterCommit) as Hrun by evaluated.
  split; [exact Hrun|].
  exact (power_counts_commitments (host := sampleHost) "O" [] 10 "peer" 0
           commitCalls afterCommit Hrun).
Defined.

(** Scenario S1: the three asks get the ids 0, 1, 2. *)
Lemma AddAsk_ids_sequential_witness :
  runAddAsks (host := sampleHost) genesis askCalls = Some askSteps
  ∧ (λ st : AskStep, st.1.2) <$> askSteps = [0; 1; 2].
Proof.
  assert (runAddAsks (host := sampleHost) genesis askCalls = Some askSteps)
    as Hrun by evaluated.
  split; [exact Hrun|].
  exact (proj1 (AddAsk_ids_sequential (host := sampleHost) "O" [] 10 "peer" 0
                  askCalls askSteps Hrun)).
Defined.

(** Scenario S1, third ask: at height 200 the asks expiring at 110 and
    100 are dropped and the new one, expiring at 210, is stored. *)
Lemma AddAsk_prunes_and_appends_witness :
  outcome (AddAsk (host := sampleHost) (message "O" 200 0) afterAsks 9 10)
  = Returns (Some 2) 0 None
  ∧ Asks (storage (AddAsk (host := sampleHost) (message "O" 200 0) afterAsks 9 10))
    = [mkAsk 9 210 2].
Proof.
  assert (outcome (AddAsk (host := sampleHost) (message "O" 200 0) afterAsks 9 10)
          = Returns (Some 2) 0 None) as Hrun by evaluated.
  split; [exact Hrun|].
  destruct (AddAsk_prunes_and_appends (host := sampleHost) (message "O" 200 0)
              afterAsks 9 10 2 eq_refl eq_refl Hrun) as (Hasks & _).
  rewrite Hasks. evaluated.
Defined.

(** The negation of C8 as stated: an owner's successful [AddAsk] with
    lifetime 0 at height 10 stores an ask whose expiry is 10, not
    above 10. *)
Lemma AddAsk_zero_lifetime_counterexample :
  msg_From (message "O" 10 0) = Owner genesis
  ∧ IsUint64 0 = true
  ∧ outcome (AddAsk (host := sampleHost) (message "O" 10 0) genesis 5 0)
    = Returns (Some 0) 0 None
  ∧ ¬ Forall (λ a, ctx_BlockHeight (message "O" 10 0) < Expiry a)
        (Asks (storage (AddAsk (host := sampleHost) (message "O" 10 0)
                          genesis 5 0))).
Proof.
  split_and!; [reflexivity..|].
  intros Hall. vm_compute in Hall.
  apply Forall_inv in Hall. discriminate Hall.
Qed.

(** A storage-market send that answers with exit code 1, and one that
    fails in the VM. *)
Lemma CommitSector_storage_market_failure_witness :
  CommitSector (host := sampleHost) (message "O" 1000 1) genesis 1
    (zeros 32) (zeros 32) (zeros 32) []
  = mkRun (Returns tt 36 (Some (Errors ErrStoragemarketCallFailed))) genesis
      [mkSend StorageMarketAddress "updatePower" None [1]]
  ∧ CommitSector (host := sampleHost) (messageSendFails "O" 1000 transportError)
      genesis 1 (zeros 32) (zeros 32) (zeros 32) []
    = mkRun (Returns tt 2 (Some transportError)) genesis
        [mkSend StorageMarketAddress "updatePower" None [1]].
Proof.
  split.
  - destruct (CommitSector_storage_market_failure (host := sampleHost)
                (message "O" 1000 1) genesis 1 (zeros 32) (zeros 32) (zeros 32)
                [] [] 1 None) as [Hexit _]; [evaluated..|].
    apply Hexit; [reflexivity | discriminate].
  - destruct (CommitSector_storage_market_failure (host := sampleHost)
                (messageSendFails "O" 1000 transportError) genesis 1
                (zeros 32) (zeros 32) (zeros 32) [] [] 0 (Some transportError))
      as [_ Hfail]; [evaluated..|].
    exact (Hfail transportError eq_refl).
Defined.

(** Anyone may read: ask 1 of scenario S1 is found, ask 7 is not. *)
Lemma GetAsk_first_match_witness :
  storage (GetAsk (host := sampleHost) (message "X" 60 0) afterAsks 1) = afterAsks
  ∧ outcome (GetAsk (host := sampleHost) (message "X" 60 0) afterAsks 1)
    = Returns (Some [x83; x07; x64; x01]) 0 None
  ∧ outcome (GetAsk (host := sampleHost) (message "X" 60 0) afterAsks 7)
    = Returns (Some [xf6]) 0 None.
Proof.
  destruct (GetAsk_first_match (host := sampleHost) (message "X" 60 0)
              afterAsks 1) as (Hsame & _ & Hhit & _).
  destruct (GetAsk_first_match (host := sampleHost) (message "X" 60 0)
              afterAsks 7) as (_ & _ & _ & Hmiss).
  split_and!.
  - exact Hsame.
  - apply (Hhit [mkAsk 5 110 0] (mkAsk 7 100 1) []); try evaluated.
    repeat constructor; discriminate.
  - apply Hmiss; [reflexivity| |evaluated].
    vm_compute. repeat constructor; discriminate.
Defined.

(** ** The further theorems at sample histories *)

Lemma last_post_before_period_start_witness :
  LastPoSt afterHistory = Some 5000
  ∧ ∃ p, ProvingPeriodStart afterHistory = Some p ∧ 5000 ≤ p.
Proof.
  unfold afterHistory, genesis.
  assert (LastPoSt (runMessages (host := sampleHost)
                      (NewState "O" [] 10 "peer" 0) history) = Some 5000)
    as Hlast by evaluated.
  split; [exact Hlast|].
  exact (last_post_before_period_start (host := sampleHost) "O" [] 10 "peer" 0
           history 5000 Hlast).
Defined.

Lemma AddAsk_then_GetAsk_witness :
  outcome (AddAsk (host := sampleHost) (message "O" 8000 0) afterHistory 6 50)
  = Returns (Some 1) 0 None
  ∧ outcome (GetAsk (host := sampleHost) (message "X" 8001 0)
               (storage (AddAsk (host := sampleHost) (message "O" 8000 0)
                           afterHistory 6 50)) 1)
    = Returns (Some [x83; x06; x72; x01]) 0 None.
Proof.
  unfold afterHistory, genesis.
  assert (outcome (AddAsk (host := sampleHost) (message "O" 8000 0)
                     (runMessages (host := sampleHost)
                        (NewState "O" [] 10 "peer" 0) history) 6 50)
          = Returns (Some 1) 0 None) as Hrun by evaluated.
  split; [exact Hrun|].
  apply (AddAsk_then_GetAsk (host := sampleHost) "O" [] 10 "peer" 0 history
           _ (message "O" 8000 0) (message "X" 8001 0) 6 50 1
           [x83; x06; x72; x01] eq_refl Hrun eq_refl).
  evaluated.
Defined.

Lemma pruned_ask_not_found_witness :
  mkAsk 5 110 0 ∈ Asks afterHistory
  ∧ outcome (GetAsk (host := sampleHost) (message "X" 8001 0)
               (storage (AddAsk (host := sampleHost) (message "O" 8000 0)
                           afterHistory 6 50)) 0)
    = Returns (Some [xf6]) 0 None.
Proof.
  unfold afterHistory, genesis.
  assert (mkAsk 5 110 0
          ∈ Asks (runMessages (host := sampleHost)
                    (NewState "O" [] 10 "peer" 0) history)) as Hin
    by (vm_compute; apply list_elem_of_here).
  split; [exact Hin|].
  apply (pruned_ask_not_found (host := sampleHost) "O" [] 10 "peer" 0 history
           _ (message "O" 8000 0) (message "X" 8001 0) 6 50 1
           (mkAsk 5 110 0) [xf6] eq_refl).
  - evaluated.
  - exact Hin.
  - simpl. lia.
  - reflexivity.
  - reflexivity.
Defined.

Lemma GetAsks_lists_ids_witness :
  GetAsks (host := sampleHost) (message "X" 60 0) afterAsks
  = mkRun (Returns [0; 1] 0 None) afterAsks [].
Proof.
  apply (GetAsks_lists_ids (host := sampleHost) (message "X" 60 0) afterAsks
           eq_refl).
  assert (Asks afterAsks = [mkAsk 5 110 0; mkAsk 7 100 1]) as -> by evaluated.
  repeat constructor.
Defined.

Lemma GetAsks_faults_on_bad_id_witness :
  IsUint64 (-1) = false
  ∧ outcome (GetAsks (host := sampleHost) (message "X" 60 0) corruptAsks)
    = Returns [] 1
        (Some (NewFaultError "miner ask has invalid ID (bad invariant)")).
Proof.
  split; [reflexivity|].
  rewrite (GetAsks_faults_on_bad_id (host := sampleHost) (message "X" 60 0)
             corruptAsks (mkAsk 7 100 (-1)) eq_refl); [reflexivity| |reflexivity].
  vm_compute. apply list_elem_of_further, list_elem_of_here.
Defined.

Lemma GetAsks_after_messages_witness :
  outcome (GetAsks (host := sampleHost) (message "X" 9000 0) afterHistory)
  = Returns [0] 0 None.
Proof.
  unfold afterHistory, genesis.
  rewrite (GetAsks_after_messages (host := sampleHost) "O" [] 10 "peer" 0
             history _ (message "X" 9000 0) eq_refl);
    [evaluated| |reflexivity].
  vm_compute. discriminate.
Defined.


Lemma AddAsk_invalid_expiry_witness :
  AddAsk (host := sampleHost) (message "O" 10 0) afterAsks 5 (2 ^ 64)
  = mkRun (Returns None 1 (Some (NewRevertError "expiry was invalid")))
      afterAsks []
  ∧ AddAsk (host := sampleHost) (message "O" 10 0) afterAsks 5 (-1)
    = mkRun (Returns None 1 (Some (NewRevertError "expiry was invalid")))
        afterAsks [].
Proof.
  split.
  - apply (AddAsk_invalid_expiry (host := sampleHost) (message "O" 10 0)
             afterAsks 5 (2 ^ 64) eq_refl eq_refl).
    right. lia.
  - apply (AddAsk_invalid_expiry (host := sampleHost) (message "O" 10 0)
             afterAsks 5 (-1) eq_refl eq_refl).
    left. lia.
Defined.

Lemma SubmitPoSt_verifier_says_no_witness :
  SubmitPoSt (host := rejectingHost) (message "O" 5000 0) afterCommit
    (zeros 192)
  = mkRun (Returns tt 39 (Some (Errors ErrInvalidPoSt))) afterCommit [].
Proof.
  destruct (SubmitPoSt_verifier_says_no (host := rejectingHost)
              (message "O" 5000 0) afterCommit (zeros 192))
    as [Hinvalid _]; [evaluated..|].
  by apply (Hinvalid (mkResponse false)).
Defined.

Lemma successive_posts_advance_by_periods_witness :
  runSubmitPoSts (host := sampleHost) afterCommit postCalls = Some afterPosts
  ∧ ProvingPeriodStart afterCommit = Some 1000
  ∧ ProvingPeriodStart afterPosts = Some 41000.
Proof.
  assert (runSubmitPoSts (host := sampleHost) afterCommit postCalls
          = Some afterPosts) as Hrun by evaluated.
  assert (ProvingPeriodStart afterCommit = Some 1000) as Hstart by evaluated.
  split_and!; [exact Hrun|exact Hstart|].
  destruct (successive_posts_advance_by_periods (host := sampleHost) postCalls
              afterCommit afterPosts 1000 Hrun Hstart) as (Hend & _).
  rewrite Hend. reflexivity.
Defined.

Lemma CommitSector_success_frame_witness :
  outcome (CommitSector (host := sampleHost) (message "O" 1000 0) afterAsks 1
             (zeros 32) (zeros 32) (zeros 32) [])
  = Returns tt 0 None
  ∧ outbox (CommitSector (host := sampleHost) (message "O" 1000 0) afterAsks 1
              (zeros 32) (zeros 32) (zeros 32) [])
    = [mkSend StorageMarketAddress "updatePower" None [1]]
  ∧ Asks (storage (CommitSector (host := sampleHost) (message "O" 1000 0)
                     afterAsks 1 (zeros 32) (zeros 32) (zeros 32) []))
    = Asks afterAsks.
Proof.
  assert (outcome (CommitSector (host := sampleHost) (message "O" 1000 0)
                     afterAsks 1 (zeros 32) (zeros 32) (zeros 32) [])
          = Returns tt 0 None) as Hrun by evaluated.
  split; [exact Hrun|].
  destruct (CommitSector_success_frame (host := sampleHost) (message "O" 1000 0)
              afterAsks 1 (zeros 32) (zeros 32) (zeros 32) [] Hrun)
    as (Hsent & _ & Hasks & _).
  by split.
Defined.

Lemma gas_refused_witness :
  ctx_Charge (messageNoGas "O" 10) 100%N = Some outOfGas
  ∧ invoke (host := sampleHost) (messageNoGas "O" 10) afterAsks (addAsk 5 100)
    = (afterAsks, [])
  ∧ outcome (GetPower (host := sampleHost) (messageNoGas "O" 10) afterAsks)
    = Returns None 36 (Some (RevertErrorWrap outOfGas "Insufficient gas")).
Proof.
  split; [reflexivity|].
  destruct (gas_refused (host := sampleHost) (messageNoGas "O" 10) afterAsks
              outOfGas eq_refl)
    as (Hall & _ & _ & _ & _ & _ & _ & _ & _ & _ & _ & Hpower & _).
  split; [apply Hall|exact Hpower].
Defined.

Lemma InitializeState_key_bound_witness :
  InitializeState sampleStateDump sampleStorage
    (Some (NewState "O" (zeros 101) 10 "peer" 0))
  = (Some (Errors ErrPublicKeyTooBig), [])
  ∧ InitializeState sampleStateDump sampleStorage
      (Some (NewState "O" (zeros 100) 10 "peer" 0))
    = (None, [OpPut (zeros 100); OpCommit "root" Undef]).
Proof.
  split.
  - apply (InitializeState_key_bound sampleStateDump sampleStorage
             (NewState "O" (zeros 101) 10 "peer" 0)).
    vm_compute. lia.
  - apply (proj2 (InitializeState_key_bound sampleStateDump sampleStorage
                    (NewState "O" (zeros 100) 10 "peer" 0))
             (zeros 100) "root"); [vm_compute; lia|reflexivity|reflexivity].
Defined.


End Miner.

(** * Properties of the entry point *)
Module MainProperties.
Import Main.

Lemma digit_pretty_char (d : N) :
  (d < 10)%N → digit (pretty_N_char d) = Some d.
Proof.
  intros Hd.
  assert (d = 0 ∨ d = 1 ∨ d = 2 ∨ d = 3 ∨ d = 4 ∨ d = 5 ∨ d = 6 ∨ d = 7
          ∨ d = 8 ∨ d = 9)%N as Hcases by lia.
  repeat (destruct Hcases as [->|Hcases]; [reflexivity|]). by subst.
Qed.

Lemma digit_not_sign (c : ascii) (d : N) :
  digit c = Some d → Ascii.eqb c "-" = false ∧ Ascii.eqb c "+" = false.
Proof.
  intros Hd. split.
  - destruct (Ascii.eqb_spec c "-") as [->|]; [|done]. by vm_compute in Hd.
  - destruct (Ascii.eqb_spec c "+") as [->|]; [|done]. by vm_compute in Hd.
Qed.

(** Reading back the digits [pretty_N_go] has written in front of [s]. *)
Lemma parseDigits_pretty_go (x : N) (s : string) :
  parseDigits (pretty_N_go x s) 0 = parseDigits s x.
Proof.
  revert s. induction (N.lt_wf_0 x) as [x _ IH]; intros s.
  destruct (decide (x = 0)%N) as [->|Hpos]; [done|].
  rewrite pretty_N_go_step by lia.
  rewrite IH by (apply N.div_lt; lia). simpl.
  rewrite digit_pretty_char by (apply N.mod_lt; lia).
  f_equal. rewrite N.mul_comm. symmetry. apply N.div_mod'.
Qed.

Lemma parseDigits_pretty (n : N) : parseDigits (pretty n) 0 = Some n.
Proof.
  unfold pretty, pretty_N. case_decide as Hn; [by subst|].
  by rewrite parseDigits_pretty_go.
Qed.

Lemma Atoi_digits (s : string) (v : N) :
  s ≠ EmptyString → parseDigits s 0 = Some v →
  Atoi s
  = if (- 2 ^ 63 <=? Z.of_N v) && (Z.of_N v <? 2 ^ 63)
    then Some (Z.of_N v) else None.
Proof.
  destruct s as [|c rest]; [done|]. intros _ Hparse.
  unfold Atoi. pose proof Hparse as Hhead. simpl in Hhead.
  destruct (digit c) as [d|] eqn:Hd; [|done].
  destruct (digit_not_sign c d Hd) as [-> ->]. simpl orb. cbv iota.
  by rewrite Hparse.
Qed.

Lemma parseDigits_bad (pre post : string) (c : ascii) (acc : N) :
  digit c = None → parseDigits (pre +:+ String c post) acc = None.
Proof.
  intros Hc. revert acc. induction pre as [|a pre IH]; intros acc; simpl.
  - by rewrite Hc.
  - by destruct (digit a).
Qed.

(** X22: when GO_FILECOIN_LOG_LEVEL holds the decimal spelling of a
    number below 2^63, that number is the level [main] sets for all
    loggers. *)
Theorem log_level_read_back (getenv : string → string) (n : N) :
  (n < 2 ^ 63)%N →
  getenv "GO_FILECOIN_LOG_LEVEL" = pretty n →
  logLevel getenv = Z.of_N n
  ∧ SetAllLoggers (Z.of_N n) ∈ main_logging getenv.
Proof.
  intros Hn Henv.
  assert (logLevel getenv = Z.of_N n) as Hlevel.
  { unfold logLevel. rewrite Henv.
    rewrite (Atoi_digits (pretty n) n); [| |apply parseDigits_pretty].
    - assert ((- 2 ^ 63 <=? Z.of_N n) && (Z.of_N n <? 2 ^ 63) = true) as ->;
        [|done].
      apply andb_true_intro. split; [apply Z.leb_le|apply Z.ltb_lt]; lia.
    - intros Hempty. pose proof (parseDigits_pretty n) as Hparse.
      rewrite Hempty in Hparse. injection Hparse as <-.
      by vm_compute in Hempty. }
  split; [done|]. unfold main_logging. rewrite Hlevel.
  apply elem_of_app. right. apply list_elem_of_here.
Qed.

(** X23: the level is 3 when GO_FILECOIN_LOG_LEVEL is unset or empty,
    when it holds a character that is no decimal digit (a sign in
    front apart), and when it spells a number that is no [int]. *)
Theorem log_level_falls_back (getenv : string → string) :
  (getenv "GO_FILECOIN_LOG_LEVEL" = EmptyString → logLevel getenv = 3)
  ∧ (∀ pre c post,
       getenv "GO_FILECOIN_LOG_LEVEL" = pre +:+ String c post →
       digit c = None →
       pre ≠ EmptyString ∨ (c ≠ "-"%char ∧ c ≠ "+"%char) →
       logLevel getenv = 3)
  ∧ (∀ n : N,
       (2 ^ 63 ≤ n)%N →
       getenv "GO_FILECOIN_LOG_LEVEL" = pretty n →
       logLevel getenv = 3).
Proof.
  unfold logLevel. split_and!.
  - by intros ->.
  - intros pre c post -> Hc Hwhere.
    destruct pre as [|a pre]; simpl.
    + destruct Hwhere as [?|[Hminus Hplus]]; [done|].
      rewrite (proj2 (Ascii.eqb_neq _ _) Hminus),
        (proj2 (Ascii.eqb_neq _ _) Hplus).
      simpl. by rewrite Hc.
    + destruct (Ascii.eqb a "-" || Ascii.eqb a "+").
      * destruct (pre +:+ String c post) as [|b body] eqn:Hbody; [done|].
        rewrite <- Hbody. by rewrite parseDigits_bad.
      * change (String a (pre +:+ String c post))
          with ((String a pre) +:+ String c post).
        by rewrite parseDigits_bad.
  - intros n Hn ->.
    rewrite (Atoi_digits (pretty n) n); [| |apply parseDigits_pretty].
    + assert ((Z.of_N n <? 2 ^ 63) = false) as -> by (apply Z.ltb_ge; lia).
      by rewrite andb_false_r.
    + intros Hempty. pose proof (parseDigits_pretty n) as Hparse.
      rewrite Hempty in Hparse. injection Hparse as <-. lia.
Qed.

Lemma log_level_read_back_witness :
  onlyLevel "4" "GO_FILECOIN_LOG_LEVEL" = pretty 4%N
  ∧ logLevel (onlyLevel "4") = 4.
Proof.
  split; [reflexivity|].
  apply (log_level_read_back (onlyLevel "4") 4); [lia|reflexivity].
Defined.

Lemma log_level_falls_back_witness :
  logLevel (onlyLevel "") = 3
  ∧ logLevel (onlyLevel "debug") = 3
  ∧ logLevel (onlyLevel "4 ") = 3
  ∧ logLevel (onlyLevel "9223372036854775808") = 3.
Proof.
  destruct (log_level_falls_back (onlyLevel "")) as (Hempty & _ & _).
  destruct (log_level_falls_back (onlyLevel "debug")) as (_ & Hword & _).
  destruct (log_level_falls_back (onlyLevel "4 ")) as (_ & Hspace & _).
  destruct (log_level_falls_back (onlyLevel "9223372036854775808"))
    as (_ & _ & Hbig).
  split_and!.
  - by apply Hempty.
  - apply (Hword "" "d"%char "ebug"); [reflexivity|reflexivity|].
    right. by split.
  - apply (Hspace "4" " "%char ""); [reflexivity|reflexivity|by left].
  - apply (Hbig 9223372036854775808%N); [lia|reflexivity].
Defined.

End MainProperties.
